(** * fix_file_permissions.py: self-healing maintenance of the [cogs] plugin directory

    A shallow embedding of the functions of [src/fix_file_permissions.py]
    and the proofs of the properties its specification states of them.

    Scope.  Four functions are embedded: [ensure_cogs_directory] (l.18-37),
    [fix_permissions] (l.39-60), [ensure_python_files] (l.62-88) and
    [verify_cog_files] (l.90-123).  The rest of the file is not: the string
    literals opened at l.133, l.175 and l.305 are closed by the docstring
    quotes at l.146, l.204 and l.330, so [create_sample_cog] and
    [copy_existing_cogs] are not Python, and the module, hence [main], does
    not compile.  Every property below is one of a function taken on its
    own.

    Modelling conventions.
    - The filesystem is a tree of [node]s.  A directory keeps its entries as
      an association list whose order is the order [os.listdir] reports.
    - A regular file carries its permission bits, its text (what a text-mode
      [read()] yields, one [ascii] per character) and a flag telling whether
      its bytes are valid UTF-8 (a strict read of an invalid file raises
      [UnicodeDecodeError], a read with [errors='ignore'] does not).
    - Paths are lists of entry names below the directory that holds the
      script ([current_dir]); [os.rename] follows the POSIX rules that the
      Python documentation gives.
    - Everything the operating system may refuse (permissions, I/O errors)
      is an oracle in [env], keyed by path, together with the process umask.
    - Each Python function becomes a computation in the monad [M]: state
      passing over the entries of the directory it works in, the log written
      so far, and an outcome that is either a value or a raised exception. *)

From Stdlib Require Import ZArith String Ascii List Bool Arith Lia.
Import ListNotations.
Open Scope string_scope.
Open Scope Z_scope.

(** ** Python string operations *)

Definition LF : string := String "010"%char EmptyString.

(** [s.startswith(p)] *)
Fixpoint startswith (s p : string) : bool :=
  match p with
  | EmptyString => true
  | String c p' =>
      match s with
      | EmptyString => false
      | String d s' => Ascii.eqb c d && startswith s' p'
      end
  end.

(** [s.endswith(suf)] *)
Fixpoint endswith (s suf : string) : bool :=
  String.eqb s suf ||
  match s with
  | EmptyString => false
  | String _ s' => endswith s' suf
  end.

(** [sub in s] *)
Fixpoint str_in (sub s : string) : bool :=
  startswith s sub ||
  match s with
  | EmptyString => false
  | String _ s' => str_in sub s'
  end.

(** [s[:n]], also what [f.read(n)] keeps of a text *)
Fixpoint take (n : nat) (s : string) : string :=
  match n, s with
  | S k, String c s' => String c (take k s')
  | _, _ => EmptyString
  end.

(** [s.split(sep)] for a non-empty separator: [skip] counts the characters
    of a separator that was just recognised and is being stepped over,
    [cur] is the piece read so far. *)
Fixpoint split_go (sep s : string) (skip : nat) (cur : string) : list string :=
  match s with
  | EmptyString => [cur]
  | String c s' =>
      match skip with
      | S k => split_go sep s' k cur
      | O =>
          if startswith s sep
          then cur :: split_go sep s' (String.length sep - 1) EmptyString
          else split_go sep s' 0 (cur ++ String c EmptyString)
      end
  end.

Definition split (s sep : string) : list string := split_go sep s 0 EmptyString.

(** [str.isspace] on the code points below 256 *)
Definition isspace (c : ascii) : bool :=
  let n := nat_of_ascii c in
  ((9 <=? n) && (n <=? 13) || (28 <=? n) && (n <=? 32) || (n =? 133) || (n =? 160))%nat.

Fixpoint lstrip (s : string) : string :=
  match s with
  | EmptyString => EmptyString
  | String c s' => if isspace c then lstrip s' else s
  end.

(** Removes trailing whitespace: a character is kept when something that
    is kept follows it, or when it is not whitespace itself. *)
Fixpoint rstrip (s : string) : string :=
  match s with
  | EmptyString => EmptyString
  | String c s' =>
      match rstrip s' with
      | EmptyString => if isspace c then EmptyString else String c EmptyString
      | r => String c r
      end
  end.

(** [s.strip()] *)
Definition strip (s : string) : string := rstrip (lstrip s).

(** Number of positions of [s] at which [sub] occurs. *)
Fixpoint occurrences (sub s : string) : nat :=
  ((if startswith s sub then 1 else 0) +
   match s with
   | EmptyString => 0
   | String _ s' => occurrences sub s'
   end)%nat.

(** ** The filesystem *)

Abbreviation name := string (only parsing).
Abbreviation path := (list string) (only parsing).

(** Permission bits, written as Python writes them: [octal 7 5 5] is
    [0o755]. *)
Definition octal (u g o : Z) : Z := u * 64 + g * 8 + o.

#[local] Set Warnings "-register-all".

Inductive node : Type :=
| File (mode : Z) (utf8 : bool) (text : string)
| Dir (mode : Z) (items : list (name * node)).

Abbreviation entries := (list (string * node)) (only parsing).

Fixpoint lookup (n : name) (es : entries) : option node :=
  match es with
  | [] => None
  | (k, v) :: es' => if String.eqb k n then Some v else lookup n es'
  end.

Fixpoint remove (n : name) (es : entries) : entries :=
  match es with
  | [] => []
  | (k, v) :: es' => if String.eqb k n then remove n es' else (k, v) :: remove n es'
  end.

(** Binds [n] to [v]: in place when [n] is listed, as a new last entry
    otherwise. *)
Fixpoint replace (n : name) (v : node) (es : entries) : entries :=
  match es with
  | [] => [(n, v)]
  | (k, w) :: es' => if String.eqb k n then (k, v) :: es' else (k, w) :: replace n v es'
  end.

Definition names (es : entries) : list name := map fst es.

Definition is_file (o : option node) : bool :=
  match o with Some (File _ _ _) => true | _ => false end.

Definition is_dir (o : option node) : bool :=
  match o with Some (Dir _ _) => true | _ => false end.

Definition is_some (o : option node) : bool :=
  match o with Some _ => true | None => false end.

(** ** Exceptions, log records, environment *)

Inductive exn : Type :=
| OSError (call : string) (p : path)
| FileNotFoundError (p : path)
| FileExistsError (p : path)
| IsADirectoryError (p : path)
| NotADirectoryError (p : path)
| UnicodeDecodeError (p : path).

Inductive level : Type := INFO | WARNING | ERROR.

Inductive arg : Type :=
| Path (p : path)
| Item (n : name)
| Exc (e : exn).

(** One call of [logger.info], [logger.warning] or [logger.error]: the
    message template and the values of its placeholders. *)
Inductive record : Type :=
| Log (levelname : level) (msg : string) (args : list arg).

Record env : Type := {
  umask : Z;
  makedirs_fails : path -> bool;
  rename_fails : path -> path -> bool;
  chmod_fails : path -> bool;
  listdir_fails : path -> bool;
  open_fails : path -> bool;
  read_fails : path -> bool;
  write_fails : path -> bool;
  append_fails : path -> bool
}.

(** Mode of a directory created by [os.makedirs] and of a file created by
    [open(.., 'w')] or [open(.., 'a')]. *)
Definition new_dir_mode (E : env) : Z := Z.land (octal 7 7 7) (Z.lnot (umask E)).
Definition new_file_mode (E : env) : Z := Z.land (octal 6 6 6) (Z.lnot (umask E)).

(** ** The monad *)

Record world : Type := { fs : entries; logs : list record }.

Inductive outcome (A : Type) : Type :=
| Ok (a : A)
| Raise (e : exn).
Arguments Ok {A} a.
Arguments Raise {A} e.

Definition M (A : Type) : Type := world -> outcome A * world.

Definition ret {A} (a : A) : M A := fun w => (Ok a, w).

Definition bind {A B} (m : M A) (k : A -> M B) : M B :=
  fun w =>
    match m w with
    | (Ok a, w') => k a w'
    | (Raise e, w') => (Raise e, w')
    end.

Definition raise {A} (e : exn) : M A := fun w => (Raise e, w).

(** [try: m  except Exception as e: h e] *)
Definition try_except {A} (m : M A) (h : exn -> M A) : M A :=
  fun w =>
    match m w with
    | (Ok a, w') => (Ok a, w')
    | (Raise e, w') => h e w'
    end.

Declare Scope py_scope.
Delimit Scope py_scope with py.
Notation "x <- m ;; k" := (bind m (fun x => k))
  (at level 100, m at next level, right associativity) : py_scope.
Notation "m ;; k" := (bind m (fun _ => k))
  (at level 100, right associativity) : py_scope.
Open Scope py_scope.

Definition get_fs : M entries := fun w => (Ok (fs w), w).
Definition put_fs (es : entries) : M unit :=
  fun w => (Ok tt, {| fs := es; logs := logs w |}).
Definition emit (r : record) : M unit :=
  fun w => (Ok tt, {| fs := fs w; logs := logs w ++ [r] |}).

Definition logger_info (msg : string) (args : list arg) : M unit := emit (Log INFO msg args).
Definition logger_warning (msg : string) (args : list arg) : M unit := emit (Log WARNING msg args).
Definition logger_error (msg : string) (args : list arg) : M unit := emit (Log ERROR msg args).

Definition when (b : bool) (m : M unit) : M unit := if b then m else ret tt.

(** [for x in l: body x] *)
Fixpoint for_each {A} (l : list A) (body : A -> M unit) : M unit :=
  match l with
  | [] => ret tt
  | x :: l' => body x ;; for_each l' body
  end.

(** ** Filesystem calls

    Each call works on the entries of [directory] (the state of the
    computation) and on one of its items; [directory] itself is only used
    to name the path the operating system is asked about. *)

(** [os.path.join(directory, item)] *)
Definition join (directory : path) (item : name) : path := (directory ++ [item])%list.

Section Program.

Variable E : env.

Definition rwxr_xr_x : Z := octal 7 5 5.
Definition rw_r__r__ : Z := octal 6 4 4.

(** [os.path.exists], [os.path.isfile], [os.path.isdir] *)
Definition path_exists (item : name) : M bool :=
  es <- get_fs ;; ret (is_some (lookup item es)).
Definition isfile (item : name) : M bool :=
  es <- get_fs ;; ret (is_file (lookup item es)).
Definition isdir (item : name) : M bool :=
  es <- get_fs ;; ret (is_dir (lookup item es)).

(** [os.makedirs(path, exist_ok=True)]; the parent is there already. *)
Definition makedirs (directory : path) (item : name) : M unit :=
  let p := join directory item in
  es <- get_fs ;;
  if makedirs_fails E p then raise (OSError "makedirs" p)
  else match lookup item es with
       | None => put_fs (replace item (Dir (new_dir_mode E) []) es)
       | Some (Dir _ _) => ret tt
       | Some (File _ _ _) => raise (FileExistsError p)
       end.

(** [os.rename(src, dst)] between two names of one directory: a regular
    file silently replaces a regular file and is refused over a directory;
    a directory is refused over a regular file or a non-empty directory. *)
Definition rename (directory : path) (src dst : name) : M unit :=
  let p := join directory src in
  let q := join directory dst in
  es <- get_fs ;;
  if rename_fails E p q then raise (OSError "rename" p)
  else match lookup src es with
       | None => raise (FileNotFoundError p)
       | Some (File m u t) =>
           if String.eqb src dst then ret tt
           else match lookup dst es with
                | Some (Dir _ _) => raise (IsADirectoryError q)
                | _ => put_fs (replace dst (File m u t) (remove src es))
                end
       | Some (Dir m items) =>
           if String.eqb src dst then ret tt
           else match lookup dst es with
                | Some (File _ _ _) => raise (NotADirectoryError q)
                | Some (Dir _ (_ :: _)) => raise (OSError "rename" q)
                | _ => put_fs (replace dst (Dir m items) (remove src es))
                end
       end.

(** [os.listdir(directory)] *)
Definition listdir (directory : path) : M (list name) :=
  if listdir_fails E directory then raise (OSError "listdir" directory)
  else es <- get_fs ;; ret (names es).

(** [with open(path, 'w') as f: f.write(data)] *)
Definition write_text (directory : path) (item : name) (data : string) : M unit :=
  let p := join directory item in
  es <- get_fs ;;
  if write_fails E p then raise (OSError "open" p)
  else match lookup item es with
       | None => put_fs (replace item (File (new_file_mode E) true data) es)
       | Some (File m _ _) => put_fs (replace item (File m true data) es)
       | Some (Dir _ _) => raise (IsADirectoryError p)
       end.

(** [with open(path, 'a') as f: f.write(data)] *)
Definition append_text (directory : path) (item : name) (data : string) : M unit :=
  let p := join directory item in
  es <- get_fs ;;
  if append_fails E p then raise (OSError "open" p)
  else match lookup item es with
       | None => put_fs (replace item (File (new_file_mode E) true data) es)
       | Some (File m u t) => put_fs (replace item (File m u (t ++ data)) es)
       | Some (Dir _ _) => raise (IsADirectoryError p)
       end.

(** [open(path, 'r', encoding='utf-8', errors='ignore')]: the handle is
    the text that can be read from it. *)
Definition open_ignore (directory : path) (item : name) : M string :=
  let p := join directory item in
  es <- get_fs ;;
  if open_fails E p then raise (OSError "open" p)
  else match lookup item es with
       | None => raise (FileNotFoundError p)
       | Some (File _ _ t) => ret t
       | Some (Dir _ _) => raise (IsADirectoryError p)
       end.

(** [f.read(n)] on such a handle *)
Definition read_chars (directory : path) (item : name) (f : string) (n : nat) : M string :=
  let p := join directory item in
  if read_fails E p then raise (OSError "read" p) else ret (take n f).

(** [with open(path, 'r', encoding='utf-8') as f: content = f.read()] *)
Definition read_text (directory : path) (item : name) : M string :=
  let p := join directory item in
  es <- get_fs ;;
  if open_fails E p then raise (OSError "open" p)
  else match lookup item es with
       | None => raise (FileNotFoundError p)
       | Some (Dir _ _) => raise (IsADirectoryError p)
       | Some (File _ u t) =>
           if read_fails E p then raise (OSError "read" p)
           else if u then ret t else raise (UnicodeDecodeError p)
       end.

(** ** The program *)

Definition cogs : name := "cogs".

(** [ensure_cogs_directory()], run in [current_dir]. *)
Definition ensure_cogs_directory : M name :=
  let current_dir : path := [] in
  let cogs_dir := cogs in
  e <- path_exists cogs_dir ;;
  when (negb e)
    (logger_info "Creating cogs directory at: {cogs_dir}" [Path [cogs_dir]] ;;
     makedirs current_dir cogs_dir) ;;
  d <- isdir cogs_dir ;;
  when (negb d)
    (logger_error "Cogs path exists but is not a directory: {cogs_dir}" [Path [cogs_dir]] ;;
     let backup_path := cogs_dir ++ ".bak" in
     logger_info "Renaming to {backup_path} and creating directory" [Path [backup_path]] ;;
     rename current_dir cogs_dir backup_path ;;
     makedirs current_dir cogs_dir) ;;
  ret cogs_dir.

(** [fix_permissions(directory)], on the node that [directory] names.
    [loop] is the [for] over the listed items: its state is the list of
    entries itself; a [chmod] that fails on a regular file leaves the loop
    through the [except] clause that encloses it, and the entries not
    reached yet stay as they are. *)
Fixpoint fix_permissions (directory : path) (n : node) {struct n} : node * list record :=
  let start := Log INFO "Fixing permissions for: {directory}" [Path directory] in
  let changed := Log INFO "Changed directory permissions: {directory}" [Path directory] in
  let failed :=
    Log ERROR "Failed to change directory permissions: {e}" [Exc (OSError "chmod" directory)] in
  match n with
  | File m u t =>
      let e := if listdir_fails E directory
               then OSError "listdir" directory else NotADirectoryError directory in
      if chmod_fails E directory
      then (File m u t, [start; failed; Log ERROR "Error listing directory: {e}" [Exc e]])
      else (File rwxr_xr_x u t, [start; changed; Log ERROR "Error listing directory: {e}" [Exc e]])
  | Dir m items =>
      let m1 := if chmod_fails E directory then m else rwxr_xr_x in
      let l1 := if chmod_fails E directory then failed else changed in
      if listdir_fails E directory
      then (Dir m1 items,
            [start; l1; Log ERROR "Error listing directory: {e}" [Exc (OSError "listdir" directory)]])
      else
        let loop :=
          fix loop (l : entries) : entries * list record :=
            match l with
            | [] => ([], [])
            | (item, child) :: rest =>
                let item_path := join directory item in
                match child with
                | File _ u t =>
                    if chmod_fails E item_path
                    then ((item, child) :: rest,
                          [Log ERROR "Error listing directory: {e}"
                             [Exc (OSError "chmod" item_path)]])
                    else
                      let r := loop rest in
                      ((item, File rw_r__r__ u t) :: fst r,
                       Log INFO "Changed file permissions: {item_path}" [Path item_path]
                         :: snd r)
                | Dir _ _ =>
                    let sub := fix_permissions item_path child in
                    let r := loop rest in
                    ((item, fst sub) :: fst r, (snd sub ++ snd r)%list)
                end
            end in
        let r := loop items in
        (Dir m1 (fst r), start :: l1 :: snd r)
  end.

(** The test of [ensure_python_files] on the first 500 characters. *)
Definition looks_like_python (content : string) : bool :=
  str_in "import" content && (str_in "def" content || str_in "class" content).

(** [ensure_python_files(directory)] *)
Definition ensure_python_files (directory : path) : M unit :=
  logger_info "Checking Python files in: {directory}" [Path directory] ;;
  let init_file := "__init__.py" in
  e <- path_exists init_file ;;
  when (negb e)
    (logger_info "Creating __init__.py in {directory}" [Path directory] ;;
     write_text directory init_file ("# This file makes the directory a Python package" ++ LF)) ;;
  items <- listdir directory ;;
  for_each items (fun item =>
    f <- isfile item ;;
    when (f && negb (startswith item "__"))
      (when (negb (endswith item ".py"))
         (h <- open_ignore directory item ;;
          try_except
            (content <- read_chars directory item h 500 ;;
             when (looks_like_python content)
               (let new_path := item ++ ".py" in
                logger_info "Renaming {item_path} to {new_path}"
                  [Path (join directory item); Path (join directory new_path)] ;;
                rename directory item new_path))
            (fun e =>
               logger_error "Error reading file {item_path}: {e}"
                 [Path (join directory item); Exc e])))).

(** The search for the class name in [verify_cog_files]: the first line
    with both markers decides, [None] when no line has them. *)
Definition is_class_line (line : string) : bool :=
  str_in "class" line && str_in "(commands.Cog)" line.

Definition class_name_of (line : string) : string :=
  strip (nth 0 (split (nth 1 (split line "class") EmptyString) "(") EmptyString).

Fixpoint find_cog_name (lines : list string) : option string :=
  match lines with
  | [] => None
  | line :: rest =>
      if is_class_line line then Some (class_name_of line) else find_cog_name rest
  end.

(** The text appended for the class [cog_name]. *)
Definition setup_function (cog_name : string) : string :=
  LF ++ LF ++ "async def setup(bot):" ++ LF ++ "    await bot.add_cog(" ++ cog_name ++ "(bot))" ++ LF.

(** [verify_cog_files(directory)] *)
Definition verify_cog_files (directory : path) : M unit :=
  logger_info "Verifying cog files in: {directory}" [Path directory] ;;
  items <- listdir directory ;;
  for_each items (fun item =>
    when (endswith item ".py" && negb (startswith item "__"))
      (try_except
         (content <- read_text directory item ;;
          let has_cog_class := str_in "commands.Cog" content in
          let has_setup_func := str_in "async def setup" content in
          when (negb has_cog_class)
            (logger_warning "File {item} missing Cog class definition" [Item item]) ;;
          when (negb has_setup_func)
            (logger_warning "File {item} missing setup function" [Item item] ;;
             when has_cog_class
               (match find_cog_name (split content LF) with
                | Some (String c r) =>
                    append_text directory item (setup_function (String c r)) ;;
                    logger_info "Added setup function to {item}" [Item item]
                | _ => ret tt
                end)))
         (fun e =>
            logger_error "Error processing file {item_path}: {e}"
              [Path (join directory item); Exc e]))).

(** The names [verify_cog_files] examines: the test of its loop. *)
Definition is_cog_file (f : name) : bool :=
  endswith f ".py" && negb (startswith f "__").

End Program.

(** * Vocabulary of the properties *)

(** An environment in which the operating system refuses nothing, with
    the given umask. *)
Definition no_faults (mask : Z) : env :=
  {| umask := mask;
     makedirs_fails := fun _ => false;
     rename_fails := fun _ _ => false;
     chmod_fails := fun _ => false;
     listdir_fails := fun _ => false;
     open_fails := fun _ => false;
     read_fails := fun _ => false;
     write_fails := fun _ => false;
     append_fails := fun _ => false |}.

(** Equality of paths, to name the one path a call is refused on. *)
Definition path_eqb (p q : path) : bool :=
  if list_eq_dec string_dec p q then true else false.

(** [hoare P m Q]: from a state whose entries satisfy [P], the outcome of
    [m] and the entries it leaves satisfy [Q].  The log never decides which
    way a computation goes, so assertions speak of the entries only. *)

Definition hoare {A} (P : entries -> Prop) (m : M A) (Q : outcome A -> entries -> Prop) : Prop :=
  forall w, P (fs w) -> Q (fst (m w)) (fs (snd (m w))).

(** Induction on a tree: the entries of a directory satisfy the
    property already. *)
Fixpoint node_rect' (P : node -> Prop)
    (Hfile : forall m u t, P (File m u t))
    (Hdir : forall m items, Forall (fun kv => P (snd kv)) items -> P (Dir m items))
    (n : node) {struct n} : P n :=
  match n with
  | File m u t => Hfile m u t
  | Dir m items =>
      Hdir m items
        ((fix all (l : entries) : Forall (fun kv => P (snd kv)) l :=
            match l with
            | [] => Forall_nil _
            | kv :: l' => Forall_cons kv (node_rect' P Hfile Hdir (snd kv)) (all l')
            end) items)
  end.

(** The loop of [fix_permissions] as a function of its own. *)
Fixpoint fix_items (E : env) (directory : path) (l : entries) : entries * list record :=
  match l with
  | [] => ([], [])
  | (item, child) :: rest =>
      let item_path := join directory item in
      match child with
      | File _ u t =>
          if chmod_fails E item_path
          then ((item, child) :: rest,
                [Log ERROR "Error listing directory: {e}" [Exc (OSError "chmod" item_path)]])
          else
            let r := fix_items E directory rest in
            ((item, File rw_r__r__ u t) :: fst r,
             Log INFO "Changed file permissions: {item_path}" [Path item_path] :: snd r)
      | Dir _ _ =>
          let sub := fix_permissions E item_path child in
          let r := fix_items E directory rest in
          ((item, fst sub) :: fst r, (snd sub ++ snd r)%list)
      end
  end.

(** A directory whose permission bits are the ones the pass sets, all the
    way down; a regular file in it has the bits of a file. *)
Inductive normalized : node -> Prop :=
| normalized_file (u : bool) (t : string) : normalized (File rw_r__r__ u t)
| normalized_dir (items : entries) :
    Forall (fun kv => normalized (snd kv)) items -> normalized (Dir rwxr_xr_x items).

(** The node a path below [n] names. *)
Fixpoint get (p : path) (n : node) : option node :=
  match p with
  | [] => Some n
  | k :: p' =>
      match n with
      | File _ _ _ => None
      | Dir _ items =>
          match lookup k items with
          | Some c => get p' c
          | None => None
          end
      end
  end.

(** Environments with umask 0o022 in which exactly one call is refused:
    [chmod] on [p], or [open] for reading on [p]. *)
Definition refusing_chmod (p : path) : env :=
  {| umask := octal 0 2 2;
     makedirs_fails := fun _ => false;
     rename_fails := fun _ _ => false;
     chmod_fails := path_eqb p;
     listdir_fails := fun _ => false;
     open_fails := fun _ => false;
     read_fails := fun _ => false;
     write_fails := fun _ => false;
     append_fails := fun _ => false |}.

Definition refusing_open (p : path) : env :=
  {| umask := octal 0 2 2;
     makedirs_fails := fun _ => false;
     rename_fails := fun _ _ => false;
     chmod_fails := fun _ => false;
     listdir_fails := fun _ => false;
     open_fails := path_eqb p;
     read_fails := fun _ => false;
     write_fails := fun _ => false;
     append_fails := fun _ => false |}.

(** A first call: the given entries, nothing logged yet. *)
Definition start (es : entries) : world := {| fs := es; logs := [] |}.

(** [frame k m]: whatever [m] does, the name [k] keeps its node. *)
Definition frame {A} (k : name) (m : M A) : Prop :=
  forall v, hoare (fun es => lookup k es = v) m (fun _ es => lookup k es = v).

Definition init_text : string := "# This file makes the directory a Python package" ++ LF.

(** The body of the loop of [verify_cog_files]. *)
Definition verify_item (E : env) (directory : path) (item : name) : M unit :=
  when (endswith item ".py" && negb (startswith item "__"))
    (try_except
       (content <- read_text E directory item ;;
        let has_cog_class := str_in "commands.Cog" content in
        let has_setup_func := str_in "async def setup" content in
        when (negb has_cog_class)
          (logger_warning "File {item} missing Cog class definition" [Item item]) ;;
        when (negb has_setup_func)
          (logger_warning "File {item} missing setup function" [Item item] ;;
           when has_cog_class
             (match find_cog_name (split content LF) with
              | Some (String c r) =>
                  append_text E directory item (setup_function (String c r)) ;;
                  logger_info "Added setup function to {item}" [Item item]
              | _ => ret tt
              end)))
       (fun e =>
          logger_error "Error processing file {item_path}: {e}"
            [Path (join directory item); Exc e])).

(** The text the linter appends to a file with text [t], if any. *)
Definition patch_for (t : string) : option string :=
  if str_in "async def setup" t then None
  else if str_in "commands.Cog" t then
    match find_cog_name (split t LF) with
    | Some (String c r) => Some (setup_function (String c r))
    | _ => None
    end
  else None.

(** What one turn of the loop does to the entries. *)
Definition verify_effect (E : env) (directory : path) (item : name) (es : entries) : entries :=
  if is_cog_file item then
    match lookup item es with
    | Some (File m u t) =>
        if open_fails E (join directory item) || read_fails E (join directory item) || negb u
        then es
        else match patch_for t with
             | Some patch =>
                 if append_fails E (join directory item) then es
                 else replace item (File m u (t ++ patch)) es
             | None => es
             end
    | _ => es
    end
  else es.

(** What [verify_cog_files] does to the entries when the listing works. *)
Definition verify_all (E : env) (directory : path) (es : entries) : entries :=
  fold_left (fun es x => verify_effect E directory x es) (names es) es.

(** The body of the loop of [ensure_python_files]. *)
Definition classify_item (E : env) (directory : path) (item : name) : M unit :=
  f <- isfile item ;;
  when (f && negb (startswith item "__"))
    (when (negb (endswith item ".py"))
       (h <- open_ignore E directory item ;;
        try_except
          (content <- read_chars E directory item h 500 ;;
           when (looks_like_python content)
             (let new_path := item ++ ".py" in
              logger_info "Renaming {item_path} to {new_path}"
                [Path (join directory item); Path (join directory new_path)] ;;
              rename E directory item new_path))
          (fun e =>
             logger_error "Error reading file {item_path}: {e}"
               [Path (join directory item); Exc e]))).

(** Whether the loop goes as far as classifying [item], a regular file. *)
Definition is_candidate (item : name) : bool :=
  negb (startswith item "__") && negb (endswith item ".py").

(** What one turn of the loop does: the outcome and the entries left. *)
Definition classify_effect (E : env) (directory : path) (item : name) (es : entries)
    : outcome unit * entries :=
  match lookup item es with
  | Some (File m u t) =>
      if is_candidate item then
        if open_fails E (join directory item)
        then (Raise (OSError "open" (join directory item)), es)
        else if read_fails E (join directory item) then (Ok tt, es)
        else if looks_like_python (take 500 t) then
          if rename_fails E (join directory item) (join directory (item ++ ".py"))
          then (Ok tt, es)
          else match lookup (item ++ ".py") es with
               | Some (Dir _ _) => (Ok tt, es)
               | _ => (Ok tt, replace (item ++ ".py") (File m u t) (remove item es))
               end
        else (Ok tt, es)
      else (Ok tt, es)
  | _ => (Ok tt, es)
  end.

(** A loop over [l] whose body does [eff] and may raise. *)
Fixpoint loop_effect {A} (eff : A -> entries -> outcome unit * entries)
    (l : list A) (es : entries) : outcome unit * entries :=
  match l with
  | [] => (Ok tt, es)
  | x :: l' =>
      match eff x es with
      | (Ok _, es') => loop_effect eff l' es'
      | (Raise e, es') => (Raise e, es')
      end
  end.

(** What [ensure_python_files] does: the package marker, then the loop. *)
Definition ensure_python_files_effect (E : env) (directory : path) (es : entries)
    : outcome unit * entries :=
  let marked :=
    if is_some (lookup "__init__.py" es) then (Ok tt, es)
    else if write_fails E (join directory "__init__.py")
         then (Raise (OSError "open" (join directory "__init__.py")), es)
         else (Ok tt, (es ++ [("__init__.py", File (new_file_mode E) true init_text)])%list) in
  match marked with
  | (Raise e, es1) => (Raise e, es1)
  | (Ok _, es1) =>
      if listdir_fails E directory then (Raise (OSError "listdir" directory), es1)
      else loop_effect (classify_effect E directory) (names es1) es1
  end.

(** [does m f]: on the entries, [m] computes [f], whatever was logged. *)
Definition does {A} (m : M A) (f : entries -> outcome A * entries) : Prop :=
  forall w, fst (m w) = fst (f (fs w)) /\ fs (snd (m w)) = snd (f (fs w)).

(** The file [item], with mode [m] and text [t], before it is renamed. *)
Definition waiting (item : name) (m : Z) (u : bool) (t : string) (es : entries) : Prop :=
  lookup item es = Some (File m u t) /\ is_dir (lookup (item ++ ".py") es) = false.

(** The same file after it was renamed. *)
Definition renamed (item : name) (m : Z) (u : bool) (t : string) (es : entries) : Prop :=
  lookup (item ++ ".py") es = Some (File m u t) /\ lookup item es = None.

(** [n] spaces. *)
Fixpoint spaces (n : nat) : string :=
  match n with
  | O => EmptyString
  | S k => String " "%char (spaces k)
  end.

(** An environment with umask 0o022 in which only [os.rename] from [p]
    is refused. *)
Definition refusing_rename (p : path) : env :=
  {| umask := octal 0 2 2;
     makedirs_fails := fun _ => false;
     rename_fails := fun src _ => path_eqb p src;
     chmod_fails := fun _ => false;
     listdir_fails := fun _ => false;
     open_fails := fun _ => false;
     read_fails := fun _ => false;
     write_fails := fun _ => false;
     append_fails := fun _ => false |}.

(** The property of the classifier as the specification words it: every
    regular file of the directory whose text has the import marker and a
    definition marker, and whose name lacks the extension, is renamed. *)
Definition classifier_renames_all_marked (E : env) (directory : path) (es : entries) : Prop :=
  forall item m u t,
    lookup item es = Some (File m u t) ->
    str_in "import" t = true ->
    str_in "def" t || str_in "class" t = true ->
    endswith item ".py" = false ->
    let es' := fs (snd (ensure_python_files E directory (start es))) in
    is_file (lookup (item ++ ".py") es') = true /\ lookup item es' = None.

Definition python_text : string := "import os" ++ LF ++ "def run(): pass" ++ LF.

(** [substr a s]: [a] occurs in [s]. *)
Definition substr (a s : string) : Prop := exists x y, s = x ++ a ++ y.

(** [c] is a character of [s]. *)
Fixpoint has_char (c : ascii) (s : string) : bool :=
  match s with
  | EmptyString => false
  | String d s' => Ascii.eqb c d || has_char c s'
  end.

(** An environment with umask 0o022 in which only appending to [p] is
    refused. *)
Definition refusing_append (p : path) : env :=
  {| umask := octal 0 2 2;
     makedirs_fails := fun _ => false;
     rename_fails := fun _ _ => false;
     chmod_fails := fun _ => false;
     listdir_fails := fun _ => false;
     open_fails := fun _ => false;
     read_fails := fun _ => false;
     write_fails := fun _ => false;
     append_fails := path_eqb p |}.

(** Environments with umask 0o022 in which only reading from the open
    file [p], or only listing [p], is refused. *)
Definition refusing_read (p : path) : env :=
  {| umask := octal 0 2 2;
     makedirs_fails := fun _ => false;
     rename_fails := fun _ _ => false;
     chmod_fails := fun _ => false;
     listdir_fails := fun _ => false;
     open_fails := fun _ => false;
     read_fails := path_eqb p;
     write_fails := fun _ => false;
     append_fails := fun _ => false |}.

Definition refusing_listdir (p : path) : env :=
  {| umask := octal 0 2 2;
     makedirs_fails := fun _ => false;
     rename_fails := fun _ _ => false;
     chmod_fails := fun _ => false;
     listdir_fails := path_eqb p;
     open_fails := fun _ => false;
     read_fails := fun _ => false;
     write_fails := fun _ => false;
     append_fails := fun _ => false |}.

(** The property of the linter as the specification words it: every
    plugin file with a class-marker line and no entry point ends with
    exactly one entry point, for the class name taken from the first such
    line, appended to its text. *)
Definition linter_patches_all_marked (E : env) (directory : path) (es : entries) : Prop :=
  forall item m u t line,
    lookup item es = Some (File m u t) ->
    endswith item ".py" = true ->
    startswith item "__" = false ->
    find is_class_line (split t LF) = Some line ->
    str_in "async def setup" t = false ->
    exists m' u' rest,
      lookup item (fs (snd (verify_cog_files E directory (start es)))) =
        Some (File m' u' (t ++ rest)) /\
      occurrences "async def setup" (t ++ rest) = 1%nat /\
      str_in ("await bot.add_cog(" ++ class_name_of line ++ "(bot))") (t ++ rest) = true.

Definition cog_text : string :=
  "from discord.ext import commands" ++ LF ++
  "class Greeter(commands.Cog):" ++ LF ++
  "    pass" ++ LF.

Definition nameless_text : string :=
  "from discord.ext import commands" ++ LF ++
  "BASE = (commands.Cog)  # base class" ++ LF.

(** The loop stops at a regular file on which [chmod] is refused. *)
Fixpoint aborts (E : env) (directory : path) (l : entries) : bool :=
  match l with
  | [] => false
  | (item, File _ _ _) :: rest =>
      chmod_fails E (join directory item) || aborts E directory rest
  | (_, Dir _ _) :: rest => aborts E directory rest
  end.

(** What the classifier and the linter see of an entry: whether it is
    there, whether it is a directory, and for a file its encoding flag and
    text. *)
Definition view (o : option node) : option (option (bool * string)) :=
  match o with
  | None => None
  | Some (Dir _ _) => Some None
  | Some (File _ u t) => Some (Some (u, t))
  end.

(** A turn of the classifier's loop for [item] changes nothing and does
    not raise. *)
Definition classify_quiet (E : env) (directory : path) (item : name) (es : entries) : bool :=
  match lookup item es with
  | Some (File _ _ t) =>
      negb (is_candidate item) ||
      negb (open_fails E (join directory item)) &&
      (read_fails E (join directory item) ||
       negb (looks_like_python (take 500 t)) ||
       rename_fails E (join directory item) (join directory (item ++ ".py")) ||
       is_dir (lookup (item ++ ".py") es))
  | _ => true
  end.

(** A turn of the linter's loop for [item] changes nothing. *)
Definition verify_quiet (E : env) (directory : path) (item : name) (es : entries) : bool :=
  match lookup item es with
  | Some (File _ u t) =>
      negb (is_cog_file item) ||
      open_fails E (join directory item) || read_fails E (join directory item) || negb u ||
      match patch_for t with
      | None => true
      | Some _ => append_fails E (join directory item)
      end
  | _ => true
  end.

(** A tree with every permission bit cleared: what is left is names,
    kinds, encodings and texts. *)
Fixpoint erase_modes (n : node) : node :=
  match n with
  | File _ u t => File 0 u t
  | Dir _ items => Dir 0 (map (fun kv : string * node => let (k, v) := kv in (k, erase_modes v)) items)
  end.

(** What the loop of [fix_permissions] does to an entry it reaches
    without a refusal. *)
Definition fix_entry (E : env) (directory : path) (kv : name * node) : name * node :=
  match snd kv with
  | File _ u t => (fst kv, File rw_r__r__ u t)
  | Dir _ _ => (fst kv, fst (fix_permissions E (join directory (fst kv)) (snd kv)))
  end.

(** The entries [verify_cog_files] may append to: regular files with a cog
    file name whose text has the class marker and lacks the entry-point
    marker. *)
Definition may_patch (k : name) (o : option node) : bool :=
  match o with
  | Some (File _ _ t) =>
      is_cog_file k && negb (str_in "async def setup" t) && str_in "commands.Cog" t
  | _ => false
  end.

(** [b] is [a] with text added at the end, if it is a regular file. *)
Definition appended (a b : name * node) : Prop :=
  fst a = fst b /\
  match snd a, snd b with
  | File m u t, File m' u' t' => m = m' /\ u = u' /\ exists rest, t' = t ++ rest
  | Dir _ _, Dir _ _ => snd a = snd b
  | _, _ => False
  end.

(** The entries [ensure_python_files] never reads, renames or replaces:
    names that start with two underscores, and directories. *)
Definition kept_by_classifier (k : name) (es : entries) : Prop :=
  lookup k es <> None /\ (startswith k "__" = true \/ is_dir (lookup k es) = true).

(** Reading and renaming are refused everywhere, nothing else is. *)
Definition refusing_read_and_rename : env :=
  {| umask := octal 0 2 2;
     makedirs_fails := fun _ => false;
     rename_fails := fun _ _ => true;
     chmod_fails := fun _ => false;
     listdir_fails := fun _ => false;
     open_fails := fun _ => false;
     read_fails := fun _ => true;
     write_fails := fun _ => false;
     append_fails := fun _ => false |}.

(** A candidate the classifier decides not to rename: reading it is
    refused, its first 500 characters do not look like Python, or the
    rename is refused. *)
Definition stays (E : env) (directory : path) (k : name) (t : string) : bool :=
  read_fails E (join directory k) ||
  negb (looks_like_python (take 500 t)) ||
  rename_fails E (join directory k) (join directory (k ++ ".py")).

(** The property of the bootstrap as the specification words it: a
    regular file that occupies the path [cogs] is found afterwards, with
    its text, at [cogs.bak]. *)
Definition displaced_file_always_backed_up (E : env) (es : entries) : Prop :=
  forall m u t,
    lookup cogs es = Some (File m u t) ->
    exists m' u',
      lookup "cogs.bak" (fs (snd (ensure_cogs_directory E (start es)))) = Some (File m' u' t).
(** * Proofs *)

(** ** Association lists *)

Lemma lookup_replace_eq (n : name) (v : node) (es : entries) :
  lookup n (replace n v es) = Some v.
Proof.
  induction es as [|[k w] es IH]; simpl.
  - now rewrite String.eqb_refl.
  - destruct (String.eqb k n) eqn:Hk; simpl; rewrite Hk; auto.
Qed.

Lemma lookup_replace_neq (n k : name) (v : node) (es : entries) :
  n <> k -> lookup k (replace n v es) = lookup k es.
Proof.
  intros Hnk. induction es as [|[j w] es IH]; simpl.
  - destruct (String.eqb n k) eqn:H; auto. apply String.eqb_eq in H. contradiction.
  - destruct (String.eqb j n) eqn:Hj; simpl.
    + apply String.eqb_eq in Hj. subst j.
      destruct (String.eqb n k) eqn:H; auto.
      apply String.eqb_eq in H. contradiction.
    + destruct (String.eqb j k); auto.
Qed.

Lemma lookup_remove_eq (n : name) (es : entries) : lookup n (remove n es) = None.
Proof.
  induction es as [|[k w] es IH]; simpl; auto.
  destruct (String.eqb k n) eqn:Hk; simpl; auto. now rewrite Hk.
Qed.

Lemma lookup_remove_neq (n k : name) (es : entries) :
  n <> k -> lookup k (remove n es) = lookup k es.
Proof.
  intros Hnk. induction es as [|[j w] es IH]; simpl; auto.
  destruct (String.eqb j n) eqn:Hj; simpl.
  - apply String.eqb_eq in Hj. subst j.
    destruct (String.eqb n k) eqn:H; auto. apply String.eqb_eq in H. contradiction.
  - destruct (String.eqb j k); auto.
Qed.

Lemma replace_absent (n : name) (v : node) (es : entries) :
  lookup n es = None -> replace n v es = (es ++ [(n, v)])%list.
Proof.
  induction es as [|[k w] es IH]; simpl; intros H; auto.
  destruct (String.eqb k n) eqn:Hk; try discriminate.
  now rewrite IH.
Qed.

Lemma lookup_in_names (n : name) (es : entries) :
  lookup n es <> None -> In n (names es).
Proof.
  induction es as [|[k w] es IH]; simpl; intros H; try congruence.
  destruct (String.eqb k n) eqn:Hk.
  - left. now apply String.eqb_eq.
  - right. auto.
Qed.

(** ** Reasoning about computations *)

Lemma hoare_ret {A} (P : entries -> Prop) (Q : outcome A -> entries -> Prop) (a : A) :
  (forall es, P es -> Q (Ok a) es) -> hoare P (ret a) Q.
Proof. intros H w Hw. apply H, Hw. Qed.

Lemma hoare_emit (P : entries -> Prop) (Q : outcome unit -> entries -> Prop) (r : record) :
  (forall es, P es -> Q (Ok tt) es) -> hoare P (emit r) Q.
Proof. intros H w Hw. apply H, Hw. Qed.

Lemma hoare_get_fs (P : entries -> Prop) (Q : outcome entries -> entries -> Prop) :
  (forall es, P es -> Q (Ok es) es) -> hoare P get_fs Q.
Proof. intros H w Hw. apply H, Hw. Qed.

Lemma hoare_bind {A B} (P : entries -> Prop) (R : outcome A -> entries -> Prop)
    (Q : outcome B -> entries -> Prop) (m : M A) (k : A -> M B) :
  hoare P m R ->
  (forall a, hoare (R (Ok a)) (k a) Q) ->
  (forall e es, R (Raise e) es -> Q (Raise e) es) ->
  hoare P (bind m k) Q.
Proof.
  intros Hm Hk He w Hw. unfold bind.
  specialize (Hm w Hw). destruct (m w) as [[a|e] w1]; simpl in *.
  - apply Hk, Hm.
  - apply He, Hm.
Qed.

(** ** The directory bootstrap *)

Ltac unfold_calls :=
  unfold path_exists, isfile, isdir, makedirs, rename, listdir, write_text, append_text,
    open_ignore, read_chars, read_text, logger_info, logger_warning, logger_error,
    when, emit, get_fs, put_fs, bind, ret, raise, try_except, join in *.

(** Symbolic execution: simplify and use the equations at hand. *)
Ltac use_eqs :=
  repeat match goal with
         | H : _ = _ |- _ => rewrite H
         end.
Ltac crunch :=
  repeat (progress (simpl; use_eqs;
                    rewrite ?lookup_replace_eq, ?lookup_remove_eq, ?String.eqb_refl)).

(** What [ensure_cogs_directory] leaves in [current_dir], case by case. *)
Lemma ensure_cogs_directory_absent (E : env) (w : world) :
  lookup cogs (fs w) = None ->
  makedirs_fails E [cogs] = false ->
  fst (ensure_cogs_directory E w) = Ok cogs /\
  fs (snd (ensure_cogs_directory E w)) = replace cogs (Dir (new_dir_mode E) []) (fs w).
Proof.
  intros H Hm. unfold ensure_cogs_directory. unfold_calls. crunch. auto.
Qed.

Lemma ensure_cogs_directory_dir (E : env) (w : world) (m : Z) (es : entries) :
  lookup cogs (fs w) = Some (Dir m es) ->
  ensure_cogs_directory E w = (Ok cogs, w).
Proof.
  intros H. unfold ensure_cogs_directory. unfold_calls. crunch. reflexivity.
Qed.

Lemma ensure_cogs_directory_file (E : env) (w : world) (m : Z) (u : bool) (t : string) :
  lookup cogs (fs w) = Some (File m u t) ->
  rename_fails E [cogs] ["cogs.bak"] = false ->
  is_dir (lookup "cogs.bak" (fs w)) = false ->
  makedirs_fails E [cogs] = false ->
  fst (ensure_cogs_directory E w) = Ok cogs /\
  fs (snd (ensure_cogs_directory E w)) =
    replace cogs (Dir (new_dir_mode E) []) (replace "cogs.bak" (File m u t) (remove cogs (fs w))).
Proof.
  intros H Hr Hb Hm. unfold ensure_cogs_directory. unfold_calls. crunch.
  destruct (lookup "cogs.bak" (fs w)) as [[|]|] eqn:Hbak; try discriminate; crunch;
    rewrite lookup_replace_neq by discriminate; crunch; auto.
Qed.

(** C7. For every initial state of the target path, [ensure_cogs_directory]
    either returns the path [cogs] and that path is then a directory, or it
    raises, which happens only when [os.makedirs] or [os.rename] is refused
    (by the system, or because a directory already sits at [cogs.bak]). *)
Theorem ensure_cogs_directory_returns_directory (E : env) (w : world) :
  match ensure_cogs_directory E w with
  | (Ok d, w') => d = cogs /\ is_dir (lookup d (fs w')) = true
  | (Raise _, _) =>
      makedirs_fails E [cogs] = true \/
      rename_fails E [cogs] ["cogs.bak"] = true \/
      (is_file (lookup cogs (fs w)) = true /\ is_dir (lookup "cogs.bak" (fs w)) = true)
  end.
Proof.
  destruct (lookup cogs (fs w)) as [[m u t|m es]|] eqn:H.
  - destruct (rename_fails E [cogs] ["cogs.bak"]) eqn:Hr.
    { unfold ensure_cogs_directory. unfold_calls. crunch. auto. }
    destruct (is_dir (lookup "cogs.bak" (fs w))) eqn:Hb.
    { unfold ensure_cogs_directory. unfold_calls. crunch.
      destruct (lookup "cogs.bak" (fs w)) as [[|]|]; try discriminate. simpl. auto. }
    destruct (makedirs_fails E [cogs]) eqn:Hm.
    { unfold ensure_cogs_directory. unfold_calls. crunch.
      destruct (lookup "cogs.bak" (fs w)) as [[|]|]; try discriminate; crunch; auto. }
    destruct (ensure_cogs_directory_file E w m u t H Hr Hb Hm) as [H1 H2].
    destruct (ensure_cogs_directory E w) as [r w']. simpl in *. subst r.
    split; auto. rewrite H2, lookup_replace_eq. reflexivity.
  - rewrite (ensure_cogs_directory_dir E w m es H). split; auto. now rewrite H.
  - destruct (makedirs_fails E [cogs]) eqn:Hm.
    { unfold ensure_cogs_directory. unfold_calls. crunch. auto. }
    destruct (ensure_cogs_directory_absent E w H Hm) as [H1 H2].
    destruct (ensure_cogs_directory E w) as [r w']. simpl in *. subst r.
    split; auto. rewrite H2, lookup_replace_eq. reflexivity.
Qed.

(** What a call that returns guarantees, for the steps that follow. *)
Lemma ensure_cogs_directory_ok (E : env) (w : world) (d : name) (w' : world) :
  ensure_cogs_directory E w = (Ok d, w') -> d = cogs /\ is_dir (lookup cogs (fs w')) = true.
Proof.
  destruct (lookup cogs (fs w)) as [[m u t|m es]|] eqn:H.
  - destruct (rename_fails E [cogs] ["cogs.bak"]) eqn:Hr.
    { unfold ensure_cogs_directory. unfold_calls. crunch. discriminate. }
    destruct (is_dir (lookup "cogs.bak" (fs w))) eqn:Hb.
    { unfold ensure_cogs_directory. unfold_calls. crunch.
      destruct (lookup "cogs.bak" (fs w)) as [[|]|]; try discriminate; simpl; discriminate. }
    destruct (makedirs_fails E [cogs]) eqn:Hm.
    { unfold ensure_cogs_directory. unfold_calls. crunch.
      destruct (lookup "cogs.bak" (fs w)) as [[|]|]; try discriminate; crunch; try discriminate. }
    destruct (ensure_cogs_directory_file E w m u t H Hr Hb Hm) as [H1 H2].
    intros Hrun. rewrite Hrun in H1, H2. cbn [fst snd] in H1, H2.
    injection H1 as ->. split; auto. rewrite H2, lookup_replace_eq. reflexivity.
  - rewrite (ensure_cogs_directory_dir E w m es H). intros Hrun.
    injection Hrun as <- <-. split; auto. now rewrite H.
  - destruct (makedirs_fails E [cogs]) eqn:Hm.
    { unfold ensure_cogs_directory. unfold_calls. crunch. discriminate. }
    destruct (ensure_cogs_directory_absent E w H Hm) as [H1 H2].
    intros Hrun. rewrite Hrun in H1, H2. cbn [fst snd] in H1, H2.
    injection H1 as ->. split; auto. rewrite H2, lookup_replace_eq. reflexivity.
Qed.

(** ** The permission pass *)

Lemma fix_permissions_dir (E : env) (directory : path) (m : Z) (items : entries) :
  fix_permissions E directory (Dir m items) =
    let start := Log INFO "Fixing permissions for: {directory}" [Path directory] in
    let m1 := if chmod_fails E directory then m else rwxr_xr_x in
    let l1 :=
      if chmod_fails E directory
      then Log ERROR "Failed to change directory permissions: {e}"
             [Exc (OSError "chmod" directory)]
      else Log INFO "Changed directory permissions: {directory}" [Path directory] in
    if listdir_fails E directory
    then (Dir m1 items,
          [start; l1;
           Log ERROR "Error listing directory: {e}" [Exc (OSError "listdir" directory)]])
    else (Dir m1 (fst (fix_items E directory items)),
          start :: l1 :: snd (fix_items E directory items)).
Proof.
  simpl. destruct (listdir_fails E directory); auto.
  match goal with
  | |- (Dir _ (fst (?f items)), _) = _ =>
      assert (Hloop : forall l, f l = fix_items E directory l)
  end.
  { induction l as [|[item child] rest IH]; simpl; auto.
    destruct child; rewrite IH; auto. }
  now rewrite Hloop.
Qed.

Arguments fix_permissions : simpl never.

Lemma lookup_In (k : name) (c : node) (es : entries) :
  lookup k es = Some c -> In (k, c) es.
Proof.
  induction es as [|[j w] es IH]; simpl; intros H; try discriminate.
  destruct (String.eqb j k) eqn:Hj.
  - apply String.eqb_eq in Hj. inversion H. subst. now left.
  - right. auto.
Qed.

Lemma normalized_get (p : path) : forall n c,
  normalized n -> get p n = Some c -> normalized c.
Proof.
  induction p as [|k p IH]; simpl; intros n c Hn Hg.
  - now inversion Hg; subst.
  - destruct Hn as [|items Hall]; try discriminate.
    destruct (lookup k items) as [c'|] eqn:Hk; try discriminate.
    apply IH with (n := c'); auto.
    apply lookup_In in Hk. rewrite Forall_forall in Hall. exact (Hall _ Hk).
Qed.

Section NoFailure.

Variable E : env.
Hypothesis chmod_ok : forall p, chmod_fails E p = false.
Hypothesis listdir_ok : forall p, listdir_fails E p = false.

Lemma fix_permissions_normalized (n : node) : forall directory m items,
  n = Dir m items -> normalized (fst (fix_permissions E directory n)).
Proof.
  induction n as [m u t|m items IH] using node_rect'; intros directory m' items' Heq;
    try discriminate.
  rewrite fix_permissions_dir. cbv zeta.
  rewrite chmod_ok, listdir_ok. simpl. constructor.
  clear Heq. induction items as [|[item child] rest IHrest]; simpl.
  - constructor.
  - inversion IH as [|? ? Hchild Hrest]; subst.
    destruct child as [mf u t|md sub].
    + rewrite chmod_ok. simpl. constructor; auto. simpl. constructor.
    + constructor; auto. simpl in *. eapply Hchild. reflexivity.
Qed.

End NoFailure.

(** C9. When no [chmod] and no listing fails, after [fix_permissions] every
    directory under and including the one it was called on has mode 0o755
    and every regular file in a visited directory has mode 0o644. *)
Theorem fix_permissions_sets_every_mode (E : env) (directory : path) (m : Z) (items : entries)
    (chmod_ok : forall p, chmod_fails E p = false)
    (listdir_ok : forall p, listdir_fails E p = false) :
  forall p : path,
    match get p (fst (fix_permissions E directory (Dir m items))) with
    | Some (Dir md _) => md = octal 7 5 5
    | Some (File mf _ _) => mf = octal 6 4 4
    | None => True
    end.
Proof.
  intros p.
  destruct (get p _) as [c|] eqn:Hg; auto.
  eapply normalized_get in Hg.
  - now destruct Hg.
  - eapply fix_permissions_normalized; eauto.
Qed.

Lemma fix_permissions_sets_every_mode_witness :
  match get ["sub"; "b.py"]
          (fst (fix_permissions (no_faults (octal 0 2 2)) ["cogs"]
                  (Dir (octal 7 0 0)
                     [("a", File (octal 6 0 0) true "x");
                      ("sub", Dir (octal 7 0 0) [("b.py", File (octal 7 7 7) true "y")])])))
  with
  | Some (Dir md _) => md = octal 7 5 5
  | Some (File mf _ _) => mf = octal 6 4 4
  | None => True
  end.
Proof.
  apply fix_permissions_sets_every_mode; intros p; reflexivity.
Defined.

(** C2. The code at the failing input: [chmod] is refused on the regular
    file [a.py], the first entry of [cogs].  The exception leaves the loop
    over the listing (it is caught by the handler placed around the whole
    loop and logged as a listing error), so the siblings [b.py] and [sub]
    are never visited and keep the modes 0o600 and 0o700 they had. *)
Theorem fix_permissions_chmod_failure_skips_siblings :
  fix_permissions (refusing_chmod ["cogs"; "a.py"]) ["cogs"]
    (Dir (octal 7 0 0)
       [("a.py", File (octal 6 0 0) true "a");
        ("b.py", File (octal 6 0 0) true "b");
        ("sub", Dir (octal 7 0 0) [("c.py", File (octal 6 0 0) true "c")])])
  = (Dir (octal 7 5 5)
       [("a.py", File (octal 6 0 0) true "a");
        ("b.py", File (octal 6 0 0) true "b");
        ("sub", Dir (octal 7 0 0) [("c.py", File (octal 6 0 0) true "c")])],
     [Log INFO "Fixing permissions for: {directory}" [Path ["cogs"]];
      Log INFO "Changed directory permissions: {directory}" [Path ["cogs"]];
      Log ERROR "Error listing directory: {e}" [Exc (OSError "chmod" ["cogs"; "a.py"])]]).
Proof. reflexivity. Qed.

(** ** The functions on concrete directories *)

(** C4. The code at the failing input: the directory holds the regular
    file [notes], which cannot be opened for reading, and after it the
    file [tool], which looks like Python.  In [ensure_python_files] the
    [open] call stands outside the [try], so its exception is not caught:
    it ends the call at [notes], nothing is logged for it, and [tool] is
    never looked at. *)
Theorem ensure_python_files_open_failure_escapes :
  ensure_python_files (refusing_open ["cogs"; "notes"]) ["cogs"]
    (start [("__init__.py", File (octal 6 4 4) true EmptyString);
            ("notes", File (octal 0 0 0) true "todo");
            ("tool", File (octal 6 0 0) true ("import os" ++ LF ++ "def run(): pass"))])
  = (Raise (OSError "open" ["cogs"; "notes"]),
     {| fs := [("__init__.py", File (octal 6 4 4) true EmptyString);
               ("notes", File (octal 0 0 0) true "todo");
               ("tool", File (octal 6 0 0) true ("import os" ++ LF ++ "def run(): pass"))];
        logs := [Log INFO "Checking Python files in: {directory}" [Path ["cogs"]]] |}).
Proof. vm_compute. reflexivity. Qed.

(** C10. The code at the failing input: the directory holds [tool], which
    looks like Python, and a regular file [tool.py].  [os.rename] puts
    [tool] in the place of [tool.py]: when [ensure_python_files] returns,
    no file holds the text that [tool.py] had. *)
Theorem rename_replaces_existing_plugin_file :
  ensure_python_files (no_faults (octal 0 2 2)) ["cogs"]
    (start [("__init__.py", File (octal 6 4 4) true EmptyString);
            ("tool", File (octal 6 4 4) true ("import os" ++ LF ++ "def run(): pass" ++ LF));
            ("tool.py", File (octal 6 4 4) true "KEEP = 1")])
  = (Ok tt,
     {| fs := [("__init__.py", File (octal 6 4 4) true EmptyString);
               ("tool.py", File (octal 6 4 4) true
                             ("import os" ++ LF ++ "def run(): pass" ++ LF))];
        logs := [Log INFO "Checking Python files in: {directory}" [Path ["cogs"]];
                 Log INFO "Renaming {item_path} to {new_path}"
                   [Path ["cogs"; "tool"]; Path ["cogs"; "tool.py"]]] |}).
Proof. vm_compute. reflexivity. Qed.

(** ** The displaced file *)

(** The claim as stated fails: when a directory sits at [cogs.bak], and
    when the renaming is refused.  In both cases the call raises and no
    file with the text exists at [cogs.bak]. *)
Lemma displaced_file_always_backed_up_fails :
  ~ displaced_file_always_backed_up (no_faults (octal 0 2 2))
      [("cogs", File (octal 6 4 4) true "not a directory");
       ("cogs.bak", Dir (octal 7 5 5) [])] /\
  ~ displaced_file_always_backed_up (refusing_rename ["cogs"])
      [("cogs", File (octal 6 4 4) true "not a directory")].
Proof.
  split; intros H.
  - destruct (H (octal 6 4 4) true "not a directory" eq_refl) as (m' & u' & H1).
    vm_compute in H1. discriminate.
  - destruct (H (octal 6 4 4) true "not a directory" eq_refl) as (m' & u' & H1).
    vm_compute in H1. discriminate.
Qed.

(** C8, amended. When a regular file occupies the path [cogs] and
    [ensure_cogs_directory] is called, then, provided [os.rename] is not
    refused and no directory sits at [cogs.bak], the file is found
    afterwards at [cogs.bak] with its text and mode, whether or not the
    directory could then be created; otherwise the call raises and leaves
    the filesystem as it was, the file still at [cogs].  Either way its
    text is not deleted. *)
Theorem ensure_cogs_directory_keeps_displaced_file (E : env) (w : world)
    (m : Z) (u : bool) (t : string) :
  lookup cogs (fs w) = Some (File m u t) ->
  if rename_fails E [cogs] ["cogs.bak"] || is_dir (lookup "cogs.bak" (fs w))
  then (exists e, fst (ensure_cogs_directory E w) = Raise e) /\
       fs (snd (ensure_cogs_directory E w)) = fs w
  else lookup "cogs.bak" (fs (snd (ensure_cogs_directory E w))) = Some (File m u t) /\
       is_file (lookup cogs (fs (snd (ensure_cogs_directory E w)))) = false.
Proof.
  intros H.
  destruct (rename_fails E [cogs] ["cogs.bak"]) eqn:Hr; cbn [orb].
  { unfold ensure_cogs_directory. unfold_calls. crunch. eauto. }
  destruct (is_dir (lookup "cogs.bak" (fs w))) eqn:Hb.
  { unfold ensure_cogs_directory. unfold_calls. crunch.
    destruct (lookup "cogs.bak" (fs w)) as [[|]|]; try discriminate. crunch. eauto. }
  destruct (makedirs_fails E [cogs]) eqn:Hm.
  { unfold ensure_cogs_directory. unfold_calls. crunch.
    destruct (lookup "cogs.bak" (fs w)) as [[|]|] eqn:Hk; try discriminate; crunch;
      rewrite ?lookup_replace_eq, ?lookup_replace_neq, ?lookup_remove_eq by discriminate;
      auto. }
  destruct (ensure_cogs_directory_file E w m u t H Hr Hb Hm) as [H1 H2].
  rewrite H2. rewrite lookup_replace_neq by discriminate.
  rewrite !lookup_replace_eq. auto.
Qed.

Lemma ensure_cogs_directory_keeps_displaced_file_witness :
  lookup "cogs.bak"
    (fs (snd (ensure_cogs_directory (no_faults (octal 0 2 2))
                (start [("cogs", File (octal 6 0 0) true "not a directory");
                        ("cogs.bak", File (octal 6 4 4) true "older")])))) =
    Some (File (octal 6 0 0) true "not a directory") /\
  is_file (lookup cogs
    (fs (snd (ensure_cogs_directory (no_faults (octal 0 2 2))
                (start [("cogs", File (octal 6 0 0) true "not a directory");
                        ("cogs.bak", File (octal 6 4 4) true "older")]))))) = false.
Proof.
  apply (ensure_cogs_directory_keeps_displaced_file (no_faults (octal 0 2 2))
           (start [("cogs", File (octal 6 0 0) true "not a directory");
                   ("cogs.bak", File (octal 6 4 4) true "older")])
           (octal 6 0 0) true "not a directory").
  reflexivity.
Defined.

(** ** Frames: what a step leaves alone *)

Lemma frame_bind {A B} (k : name) (m : M A) (f : A -> M B) :
  frame k m -> (forall a, frame k (f a)) -> frame k (bind m f).
Proof.
  intros Hm Hf v. eapply hoare_bind.
  - apply Hm.
  - intros a. apply Hf.
  - auto.
Qed.

Lemma frame_emit (k : name) (r : record) : frame k (emit r).
Proof. intros v. apply hoare_emit. auto. Qed.

Lemma frame_ret {A} (k : name) (a : A) : frame k (ret a).
Proof. intros v. apply hoare_ret. auto. Qed.

Lemma frame_get_fs (k : name) : frame k get_fs.
Proof. intros v. apply hoare_get_fs. auto. Qed.

(** ** One item of the linter's loop *)

Lemma verify_cog_files_unfold (E : env) (directory : path) :
  verify_cog_files E directory =
    (logger_info "Verifying cog files in: {directory}" [Path directory] ;;
     items <- listdir E directory ;;
     for_each items (verify_item E directory)).
Proof. reflexivity. Qed.

Lemma verify_item_effect (E : env) (directory : path) (item : name) (w : world) :
  fst (verify_item E directory item w) = Ok tt /\
  fs (snd (verify_item E directory item w)) = verify_effect E directory item (fs w).
Proof.
  unfold verify_item, verify_effect, is_cog_file, patch_for.
  destruct (endswith item ".py" && negb (startswith item "__")); [|now simpl].
  unfold_calls. cbn [fs logs fst snd].
  destruct (lookup item (fs w)) as [[m u t|m items]|] eqn:Hl;
    (destruct (open_fails E (directory ++ [item])%list); [now simpl|]); try now simpl.
  destruct (read_fails E (directory ++ [item])%list); [now simpl|].
  destruct u; [|now simpl].
  cbn [orb negb].
  destruct (str_in "async def setup" t), (str_in "commands.Cog" t); try now simpl.
  cbn [negb fs logs fst snd].
  destruct (find_cog_name (split t LF)) as [[|c r]|]; try now simpl.
  cbn [fs logs fst snd]. rewrite Hl.
  destruct (append_fails E (directory ++ [item])%list); now simpl.
Qed.

(** A loop whose body never raises and changes the entries by [eff]. *)
Lemma for_each_effect {A} (body : A -> M unit) (eff : A -> entries -> entries) :
  (forall x w, fst (body x w) = Ok tt /\ fs (snd (body x w)) = eff x (fs w)) ->
  forall l w,
    fst (for_each l body w) = Ok tt /\
    fs (snd (for_each l body w)) = fold_left (fun es x => eff x es) l (fs w).
Proof.
  intros Hb. induction l as [|x l IH]; intros w; simpl; auto.
  unfold bind. destruct (Hb x w) as [H1 H2].
  destruct (body x w) as [[[]|e] w1]; simpl in *; try discriminate.
  rewrite <- H2. apply IH.
Qed.

Lemma verify_cog_files_effect (E : env) (directory : path) (w : world) :
  if listdir_fails E directory
  then fst (verify_cog_files E directory w) = Raise (OSError "listdir" directory) /\
       fs (snd (verify_cog_files E directory w)) = fs w
  else fst (verify_cog_files E directory w) = Ok tt /\
       fs (snd (verify_cog_files E directory w)) = verify_all E directory (fs w).
Proof.
  rewrite verify_cog_files_unfold. unfold logger_info, listdir.
  destruct (listdir_fails E directory) eqn:Hl.
  - unfold bind, emit, raise. simpl. auto.
  - unfold bind at 1. unfold emit at 1. unfold bind at 1. unfold bind at 1.
    unfold get_fs at 1. unfold ret at 1. cbn [fs logs fst snd].
    apply (for_each_effect (verify_item E directory) (verify_effect E directory)
             (verify_item_effect E directory)).
Qed.

(** Starts the proof of a triple from the equation of the run. *)
Ltac by_run m Hrun :=
  match goal with
  | w : world |- _ =>
      let r := fresh "r" in
      let w' := fresh "w'" in
      destruct (m w) as [r w'] eqn:Hrun; cbn [fst snd]; revert Hrun
  end.

Ltac done_run :=
  let Hrun := fresh "Hrun" in
  intros Hrun; injection Hrun as <- <-; cbn [fs logs fst snd].

(** ** One item of the classifier's loop *)

Lemma ensure_python_files_unfold (E : env) (directory : path) :
  ensure_python_files E directory =
    (logger_info "Checking Python files in: {directory}" [Path directory] ;;
     e <- path_exists "__init__.py" ;;
     when (negb e)
       (logger_info "Creating __init__.py in {directory}" [Path directory] ;;
        write_text E directory "__init__.py" init_text) ;;
     items <- listdir E directory ;;
     for_each items (classify_item E directory)).
Proof. reflexivity. Qed.

Lemma length_append (s t : string) :
  String.length (s ++ t) = (String.length s + String.length t)%nat.
Proof. induction s; simpl; auto. Qed.

Lemma eqb_append_py (item : string) : String.eqb item (item ++ ".py") = false.
Proof.
  apply String.eqb_neq. intros H.
  apply (f_equal String.length) in H. rewrite length_append in H. simpl in H. lia.
Qed.

Lemma classify_item_effect (E : env) (directory : path) (item : name) (w : world) :
  fst (classify_item E directory item w) = fst (classify_effect E directory item (fs w)) /\
  fs (snd (classify_item E directory item w)) = snd (classify_effect E directory item (fs w)).
Proof.
  by_run (classify_item E directory item) Hrun.
  unfold classify_item, classify_effect, is_candidate.
  unfold_calls. cbn [fs logs fst snd].
  destruct (lookup item (fs w)) as [[m u t|m items]|] eqn:Hl; cbn [is_file andb];
    try (done_run; auto; fail).
  destruct (startswith item "__"); cbn [negb andb]; [done_run; auto|].
  destruct (endswith item ".py"); cbn [negb]; [done_run; auto|].
  destruct (open_fails E (directory ++ [item])%list); [done_run; auto|].
  rewrite Hl.
  destruct (read_fails E (directory ++ [item])%list); [done_run; auto|].
  destruct (looks_like_python (take 500 t)); [|done_run; auto].
  cbn [fs logs fst snd].
  destruct (rename_fails E (directory ++ [item])%list (directory ++ [(item ++ ".py")%string])%list);
    [done_run; auto|].
  rewrite Hl, eqb_append_py.
  destruct (lookup (item ++ ".py") (fs w)) as [[|]|]; done_run; auto.
Qed.

Lemma for_each_loop_effect {A} (body : A -> M unit)
    (eff : A -> entries -> outcome unit * entries) :
  (forall x w, fst (body x w) = fst (eff x (fs w)) /\
               fs (snd (body x w)) = snd (eff x (fs w))) ->
  forall l w,
    fst (for_each l body w) = fst (loop_effect eff l (fs w)) /\
    fs (snd (for_each l body w)) = snd (loop_effect eff l (fs w)).
Proof.
  intros Hb. induction l as [|x l IH]; intros w; simpl; auto.
  unfold bind. destruct (Hb x w) as [H1 H2].
  destruct (body x w) as [r w1]. destruct (eff x (fs w)) as [r' es']. simpl in *.
  subst r' es'. destruct r as [[]|e]; simpl; auto.
Qed.

Lemma does_ext {A} (m : M A) (f g : entries -> outcome A * entries) :
  does m f -> (forall es, f es = g es) -> does m g.
Proof. intros H Hfg w. rewrite <- Hfg. apply H. Qed.

Lemma does_bind {A B} (m : M A) (k : A -> M B)
    (f : entries -> outcome A * entries) (g : A -> entries -> outcome B * entries) :
  does m f -> (forall a, does (k a) (g a)) ->
  does (bind m k)
    (fun es => match f es with
               | (Ok a, es') => g a es'
               | (Raise e, es') => (Raise e, es')
               end).
Proof.
  intros Hm Hk w. unfold bind. destruct (Hm w) as [H1 H2].
  destruct (m w) as [r w1]. destruct (f (fs w)) as [r' es']. simpl in *.
  subst r' es'. destruct r as [a|e]; simpl; auto. apply Hk.
Qed.

Lemma does_emit_then {B} (r : record) (k : M B) (f : entries -> outcome B * entries) :
  does k f -> does (emit r ;; k) f.
Proof. intros H w. unfold bind, emit. simpl. apply (H {| fs := fs w; logs := _ |}). Qed.

Lemma does_ret {A} (a : A) : does (ret a) (fun es => (Ok a, es)).
Proof. intros w. auto. Qed.

Lemma does_for_each {A} (body : A -> M unit)
    (eff : A -> entries -> outcome unit * entries) (l : list A) :
  (forall x, does (body x) (eff x)) -> does (for_each l body) (loop_effect eff l).
Proof. intros H w. now apply for_each_loop_effect. Qed.

Lemma does_listdir (E : env) (directory : path) :
  does (listdir E directory)
    (fun es => if listdir_fails E directory
               then (Raise (OSError "listdir" directory), es)
               else (Ok (names es), es)).
Proof. intros w. unfold listdir. destruct (listdir_fails E directory); simpl; auto. Qed.

Lemma does_write_text (E : env) (directory : path) (item : name) (data : string) :
  does (write_text E directory item data)
    (fun es =>
       if write_fails E (join directory item)
       then (Raise (OSError "open" (join directory item)), es)
       else match lookup item es with
            | None => (Ok tt, replace item (File (new_file_mode E) true data) es)
            | Some (File m _ _) => (Ok tt, replace item (File m true data) es)
            | Some (Dir _ _) => (Raise (IsADirectoryError (join directory item)), es)
            end).
Proof.
  intros w. unfold write_text, bind, get_fs, put_fs, raise.
  destruct (write_fails E (join directory item)); simpl; auto.
  destruct (lookup item (fs w)) as [[|]|]; simpl; auto.
Qed.

Lemma does_when (b : bool) (m : M unit) (f : entries -> outcome unit * entries) :
  does m f -> does (when b m) (fun es => if b then f es else (Ok tt, es)).
Proof. intros H. destruct b; simpl; auto. apply does_ret. Qed.

Lemma does_path_exists (item : name) :
  does (path_exists item) (fun es => (Ok (is_some (lookup item es)), es)).
Proof. intros w. auto. Qed.

Lemma ensure_python_files_is_effect (E : env) (directory : path) :
  does (ensure_python_files E directory) (ensure_python_files_effect E directory).
Proof.
  rewrite ensure_python_files_unfold. unfold logger_info.
  apply does_emit_then.
  eapply does_ext.
  - eapply does_bind; [apply does_path_exists|].
    intros e. eapply does_bind.
    + apply does_when. apply does_emit_then. apply does_write_text.
    + intros u. eapply does_bind; [apply does_listdir|].
      intros items. apply does_for_each. intros x w.
      apply classify_item_effect.
  - intros es. unfold ensure_python_files_effect. cbv beta.
    destruct (lookup "__init__.py" es) as [n|] eqn:Hi; cbn [is_some negb].
    + destruct (listdir_fails E directory); auto.
    + destruct (write_fails E (join directory "__init__.py")); auto.
      rewrite (replace_absent _ _ _ Hi).
      destruct (listdir_fails E directory); auto.
Qed.

(** ** Items the linter leaves as they are *)

Lemma verify_effect_not_cog (E : env) (directory : path) (item : name) (es : entries) :
  is_cog_file item = false -> verify_effect E directory item es = es.
Proof. intros H. unfold verify_effect. now rewrite H. Qed.

Lemma verify_effect_no_patch (E : env) (directory : path) (item : name) (es : entries)
    (m : Z) (u : bool) (t : string) :
  lookup item es = Some (File m u t) -> patch_for t = None ->
  verify_effect E directory item es = es.
Proof.
  intros Hl Hp. unfold verify_effect. rewrite Hl, Hp.
  destruct (is_cog_file item); auto.
  now destruct (open_fails E (join directory item) || read_fails E (join directory item) || negb u).
Qed.

(** ** The classifier *)

Lemma endswith_append (x s : string) : endswith (x ++ s) s = true.
Proof.
  induction x as [|c x IH]; simpl.
  - destruct s; simpl.
    + reflexivity.
    + now rewrite Ascii.eqb_refl, String.eqb_refl.
  - rewrite IH. apply orb_true_r.
Qed.

Lemma append_cancel_r (x y s : string) : x ++ s = y ++ s -> x = y.
Proof.
  revert y. induction x as [|c x IH]; intros [|d y] H; simpl in *; auto.
  - apply (f_equal String.length) in H. simpl in H. rewrite length_append in H. lia.
  - apply (f_equal String.length) in H. simpl in H. rewrite length_append in H. lia.
  - inversion H. f_equal. auto.
Qed.

Section Classifier.

Variable E : env.
Variable directory : path.
Variable item : name.
Variables (m : Z) (u : bool) (t : string).

Hypothesis not_dunder : startswith item "__" = false.
Hypothesis not_py : endswith item ".py" = false.

Lemma item_neq_py (y : name) : item <> y ++ ".py".
Proof.
  intros H. rewrite H, endswith_append in not_py. discriminate.
Qed.

(** A turn of the loop for another name changes neither state. *)
Lemma classify_other (y : name) (es : entries) :
  y <> item ->
  lookup item (snd (classify_effect E directory y es)) = lookup item es /\
  lookup (item ++ ".py") (snd (classify_effect E directory y es)) = lookup (item ++ ".py") es.
Proof.
  intros Hy. unfold classify_effect.
  destruct (lookup y es) as [[my uy ty|]|] eqn:Hl; auto.
  destruct (is_candidate y) eqn:Hc; auto.
  destruct (open_fails E (join directory y)); auto.
  destruct (read_fails E (join directory y)); auto.
  destruct (looks_like_python (take 500 ty)); auto.
  destruct (rename_fails E (join directory y) (join directory (y ++ ".py"))); auto.
  assert (Hy1 : y ++ ".py" <> item) by (intros H; symmetry in H; now apply item_neq_py in H).
  assert (Hy2 : y ++ ".py" <> item ++ ".py")
    by (intros H; apply append_cancel_r in H; contradiction).
  assert (Hy3 : y <> item ++ ".py").
  { intros H. unfold is_candidate in Hc. rewrite H, endswith_append in Hc.
    rewrite andb_false_r in Hc. discriminate. }
  destruct (lookup (y ++ ".py") es) as [[|]|]; auto; simpl;
    rewrite !lookup_replace_neq, !lookup_remove_neq by assumption; auto.
Qed.

Hypothesis python : looks_like_python (take 500 t) = true.
Hypothesis read_ok : read_fails E (join directory item) = false.
Hypothesis rename_ok :
  rename_fails E (join directory item) (join directory (item ++ ".py")) = false.

(** The turn of [item] itself: the file is renamed, unless [open] is
    refused, which ends the loop. *)
Lemma classify_self (es : entries) :
  waiting item m u t es ->
  match classify_effect E directory item es with
  | (Ok _, es') => renamed item m u t es'
  | (Raise _, _) => open_fails E (join directory item) = true
  end.
Proof.
  intros [Hl Hd]. unfold classify_effect, is_candidate.
  rewrite Hl, not_dunder, not_py. cbn [negb andb].
  destruct (open_fails E (join directory item)); auto.
  rewrite read_ok, python, rename_ok.
  assert (Hne : item ++ ".py" <> item).
  { intros H. symmetry in H. now apply item_neq_py in H. }
  assert (Hr : renamed item m u t (replace (item ++ ".py") (File m u t) (remove item es))).
  { split.
    - apply lookup_replace_eq.
    - rewrite lookup_replace_neq by exact Hne. apply lookup_remove_eq. }
  destruct (lookup (item ++ ".py") es) as [[|]|]; auto. discriminate.
Qed.

Lemma classify_self_renamed (es : entries) :
  renamed item m u t es -> classify_effect E directory item es = (Ok tt, es).
Proof. intros [_ Hl]. unfold classify_effect. now rewrite Hl. Qed.

Lemma classify_loop_renames (l : list name) : forall es es',
  loop_effect (classify_effect E directory) l es = (Ok tt, es') ->
  (renamed item m u t es -> renamed item m u t es') /\
  (waiting item m u t es -> In item l -> renamed item m u t es') /\
  (waiting item m u t es -> waiting item m u t es' \/ renamed item m u t es').
Proof.
  induction l as [|y l IH]; intros es es' Hrun; simpl in Hrun.
  - inversion Hrun; subst. split; [auto|split; [intros _ []|auto]].
  - destruct (String.eqb y item) eqn:Hy.
    + apply String.eqb_eq in Hy. subst y.
      assert (Hren : renamed item m u t es -> renamed item m u t es').
      { intros Hr. rewrite (classify_self_renamed es Hr) in Hrun.
        destruct (IH es es' Hrun) as (IH1 & _ & _). auto. }
      assert (Hwait : waiting item m u t es -> renamed item m u t es').
      { intros Hw. pose proof (classify_self es Hw) as Hs.
        destruct (classify_effect E directory item es) as [[[]|e] es1]; try discriminate.
        destruct (IH es1 es' Hrun) as (IH1 & _ & _). auto. }
      split; [exact Hren|split; [intros Hw _; now apply Hwait|intros Hw; right; now apply Hwait]].
    + apply String.eqb_neq in Hy.
      destruct (classify_other y es Hy) as [H1 H2].
      destruct (classify_effect E directory y es) as [[[]|e] es1]; try discriminate.
      simpl in H1, H2.
      destruct (IH es1 es' Hrun) as (IH1 & IH2 & IH3).
      assert (Hw : waiting item m u t es -> waiting item m u t es1)
        by (unfold waiting; rewrite H1, H2; auto).
      assert (Hr : renamed item m u t es -> renamed item m u t es1)
        by (unfold renamed; rewrite H1, H2; auto).
      split; [auto|split; [|auto]].
      intros Hwait [Hin|Hin]; [contradiction|auto].
Qed.

End Classifier.

(** The claim as stated fails: for a file whose markers come after the
    first 500 characters, for a file whose name starts with two
    underscores, for a file whose new name is taken by a directory, for a
    file whose renaming is refused, and for a file whose reading is
    refused. *)
Lemma classifier_renames_all_marked_fails :
  ~ classifier_renames_all_marked (no_faults (octal 0 2 2)) ["cogs"]
      [("__init__.py", File (octal 6 4 4) true EmptyString);
       ("late", File (octal 6 4 4) true (spaces 500 ++ python_text))] /\
  ~ classifier_renames_all_marked (no_faults (octal 0 2 2)) ["cogs"]
      [("__init__.py", File (octal 6 4 4) true EmptyString);
       ("__main__", File (octal 6 4 4) true python_text)] /\
  ~ classifier_renames_all_marked (no_faults (octal 0 2 2)) ["cogs"]
      [("__init__.py", File (octal 6 4 4) true EmptyString);
       ("tool", File (octal 6 4 4) true python_text);
       ("tool.py", Dir (octal 7 5 5) [])] /\
  ~ classifier_renames_all_marked (refusing_rename ["cogs"; "tool"]) ["cogs"]
      [("__init__.py", File (octal 6 4 4) true EmptyString);
       ("tool", File (octal 6 4 4) true python_text)] /\
  ~ classifier_renames_all_marked (refusing_read ["cogs"; "tool"]) ["cogs"]
      [("__init__.py", File (octal 6 4 4) true EmptyString);
       ("tool", File (octal 6 4 4) true python_text)].
Proof.
  repeat split; intros H.
  - specialize (H "late" (octal 6 4 4) true (spaces 500 ++ python_text)).
    vm_compute in H. destruct H; auto. discriminate.
  - specialize (H "__main__" (octal 6 4 4) true python_text).
    vm_compute in H. destruct H; auto. discriminate.
  - specialize (H "tool" (octal 6 4 4) true python_text).
    vm_compute in H. destruct H; auto. discriminate.
  - specialize (H "tool" (octal 6 4 4) true python_text).
    vm_compute in H. destruct H; auto. discriminate.
  - specialize (H "tool" (octal 6 4 4) true python_text).
    vm_compute in H. destruct H; auto. discriminate.
Qed.

Lemma dunder_append (item : string) :
  startswith item "__" = false -> startswith (item ++ ".py") "__" = false.
Proof.
  destruct item as [|a [|b r]]; cbn [startswith append]; intros H.
  - reflexivity.
  - match goal with |- context [Ascii.eqb ?x a] => destruct (Ascii.eqb x a) end;
      reflexivity.
  - assert (Hnil : forall s, startswith s EmptyString = true) by (intros []; reflexivity).
    rewrite Hnil in *. exact H.
Qed.

Lemma lookup_init_other (k : name) (v : node) (es : entries) :
  lookup "__init__.py" es = None ->
  startswith k "__" = false ->
  lookup k (es ++ [("__init__.py", v)])%list = lookup k es.
Proof.
  intros Hi Hk. rewrite <- (replace_absent _ _ _ Hi).
  apply lookup_replace_neq. intros H. subst k. discriminate.
Qed.

(** C3, amended. A regular file of the directory
    whose name neither starts with two underscores nor ends in [.py],
    whose first 500 characters
    hold the import marker and a definition marker, is renamed by
    [ensure_python_files] when that function returns, provided reading and
    renaming it are not refused and no directory has its new name: the
    file is then found under its name with [.py] appended, text and mode
    unchanged, and no longer under its old name. *)
Theorem ensure_python_files_renames (E : env) (directory : path) (w : world)
    (item : name) (m : Z) (u : bool) (t : string) :
  lookup item (fs w) = Some (File m u t) ->
  startswith item "__" = false ->
  endswith item ".py" = false ->
  looks_like_python (take 500 t) = true ->
  read_fails E (join directory item) = false ->
  rename_fails E (join directory item) (join directory (item ++ ".py")) = false ->
  is_dir (lookup (item ++ ".py") (fs w)) = false ->
  fst (ensure_python_files E directory w) = Ok tt ->
  lookup (item ++ ".py") (fs (snd (ensure_python_files E directory w))) = Some (File m u t) /\
  lookup item (fs (snd (ensure_python_files E directory w))) = None.
Proof.
  intros Hl Hd Hp Hpy Hread Hren Hdir Hok.
  destruct (ensure_python_files_is_effect E directory w) as [H1 H2].
  rewrite H2. rewrite H1 in Hok. clear H1 H2.
  unfold ensure_python_files_effect in *.
  assert (Hpy' := dunder_append item Hd).
  assert (Hloop : forall es1,
            waiting item m u t es1 ->
            fst (loop_effect (classify_effect E directory) (names es1) es1) = Ok tt ->
            renamed item m u t (snd (loop_effect (classify_effect E directory) (names es1) es1))).
  { intros es1 Hw Hrun.
    destruct (loop_effect (classify_effect E directory) (names es1) es1) as [r es'] eqn:Hrun'.
    simpl in Hrun. subst r.
    destruct (classify_loop_renames E directory item m u t Hd Hp Hpy Hread Hren
                (names es1) es1 es' Hrun') as (_ & Hin & _).
    apply Hin; auto. apply lookup_in_names. destruct Hw as [Hw _]. congruence. }
  destruct (lookup "__init__.py" (fs w)) eqn:Hi; cbn [is_some] in *.
  - destruct (listdir_fails E directory); try discriminate.
    apply Hloop; auto. now split.
  - destruct (write_fails E (join directory "__init__.py")); try discriminate.
    destruct (listdir_fails E directory); try discriminate.
    apply Hloop; auto. split; rewrite lookup_init_other; auto.
Qed.

Lemma ensure_python_files_renames_witness :
  let w := start [("__init__.py", File (octal 6 4 4) true EmptyString);
                  ("tool", File (octal 6 0 0) true python_text)] in
  lookup "tool.py" (fs (snd (ensure_python_files (no_faults (octal 0 2 2)) ["cogs"] w))) =
    Some (File (octal 6 0 0) true python_text) /\
  lookup "tool" (fs (snd (ensure_python_files (no_faults (octal 0 2 2)) ["cogs"] w))) = None.
Proof.
  intros w.
  apply (ensure_python_files_renames (no_faults (octal 0 2 2)) ["cogs"] w "tool");
    reflexivity.
Defined.

(** ** Strings *)

Lemma append_assoc (a b c : string) : (a ++ b) ++ c = a ++ (b ++ c).
Proof. induction a as [|x a IH]; simpl; auto. now rewrite IH. Qed.

Lemma append_nil_r (a : string) : a ++ EmptyString = a.
Proof. induction a as [|x a IH]; simpl; auto. now rewrite IH. Qed.

Lemma substr_refl (s : string) : substr s s.
Proof. exists EmptyString, EmptyString. simpl. now rewrite append_nil_r. Qed.

Lemma substr_nil (s : string) : substr EmptyString s.
Proof. exists EmptyString, s. reflexivity. Qed.

Lemma substr_trans (a b c : string) : substr a b -> substr b c -> substr a c.
Proof.
  intros (x & y & ->) (x' & y' & ->).
  exists (x' ++ x), (y ++ y'). now rewrite !append_assoc.
Qed.

Lemma substr_cons (a s : string) (c : ascii) : substr a s -> substr a (String c s).
Proof. intros (x & y & ->). exists (String c x), y. reflexivity. Qed.

Lemma startswith_nil (s : string) : startswith s EmptyString = true.
Proof. now destruct s. Qed.

Lemma startswith_append (p b : string) : startswith (p ++ b) p = true.
Proof.
  induction p as [|c p IH]; simpl.
  - apply startswith_nil.
  - now rewrite Ascii.eqb_refl, IH.
Qed.

Lemma startswith_inv (p : string) : forall s,
  startswith s p = true -> exists b, s = p ++ b.
Proof.
  induction p as [|c p IH]; intros s H.
  - exists s. reflexivity.
  - destruct s as [|d s]; simpl in H; try discriminate.
    apply andb_true_iff in H. destruct H as [Hc Hs].
    apply Ascii.eqb_eq in Hc. subst d.
    destruct (IH s Hs) as [b ->]. exists b. reflexivity.
Qed.

Lemma str_in_substr (sub s : string) : str_in sub s = true <-> substr sub s.
Proof.
  split.
  - induction s as [|c s IH]; cbn [str_in]; intros H.
    + rewrite orb_false_r in H. destruct (startswith_inv _ _ H) as [b ->].
      exists EmptyString, b. reflexivity.
    + apply orb_true_iff in H. destruct H as [H|H].
      * destruct (startswith_inv _ _ H) as [b Hb]. rewrite Hb.
        exists EmptyString, b. reflexivity.
      * apply substr_cons. auto.
  - intros (x & y & ->). induction x as [|c x IH]; cbn [append].
    + destruct (sub ++ y) eqn:Hs; cbn [str_in];
        rewrite <- Hs, startswith_append; reflexivity.
    + cbn [str_in]. rewrite IH. apply orb_true_r.
Qed.

Lemma str_in_mono (sub a s : string) :
  str_in sub a = true -> substr a s -> str_in sub s = true.
Proof.
  intros H Has. apply str_in_substr. apply str_in_substr in H.
  eapply substr_trans; eauto.
Qed.

Lemma str_in_append_r (sub a b : string) : str_in sub b = true -> str_in sub (a ++ b) = true.
Proof.
  intros H. eapply str_in_mono; eauto. exists a, EmptyString.
  now rewrite append_nil_r.
Qed.

(** Pieces of a split, stripped strings and the extracted class name all
    occur in the string they are taken from. *)
Lemma split_go_substr (sep : string) (s : string) : forall skip cur x,
  In x (split_go sep s skip cur) ->
  substr x s \/
  exists d p q, s = d ++ p ++ q /\ (String.length d <= skip)%nat /\ x = cur ++ p.
Proof.
  induction s as [|c s IH]; intros skip cur x Hin; cbn [split_go] in Hin.
  - destruct Hin as [<-|[]]. right. exists EmptyString, EmptyString, EmptyString.
    simpl. rewrite append_nil_r. repeat split; auto. lia.
  - destruct skip as [|k].
    + destruct (startswith (String c s) sep).
      * cbn [In] in Hin. destruct Hin as [<-|Hin].
        -- right. exists EmptyString, EmptyString, (String c s). simpl.
           rewrite append_nil_r. repeat split; auto.
        -- left. apply substr_cons.
           destruct (IH _ _ _ Hin) as [H|(d & p & q & -> & _ & ->)]; auto.
           exists d, q. reflexivity.
      * destruct (IH _ _ _ Hin) as [H|(d & p & q & Hs & Hd & ->)].
        -- left. now apply substr_cons.
        -- right. destruct d; simpl in Hd; try lia. simpl in Hs. subst s.
           exists EmptyString, (String c p), q. simpl. repeat split; auto.
           now rewrite append_assoc.
    + destruct (IH _ _ _ Hin) as [H|(d & p & q & -> & Hd & ->)].
      * left. now apply substr_cons.
      * right. exists (String c d), p, q. simpl. repeat split; auto. lia.
Qed.

Lemma split_substr (s sep x : string) : In x (split s sep) -> substr x s.
Proof.
  intros Hin. destruct (split_go_substr sep s 0 EmptyString x Hin)
    as [H|(d & p & q & -> & _ & ->)]; auto.
  exists d, q. reflexivity.
Qed.

Lemma nth_split_substr (n : nat) (s sep : string) :
  substr (nth n (split s sep) EmptyString) s.
Proof.
  destruct (nth_in_or_default n (split s sep) EmptyString) as [H|H].
  - now apply (split_substr s sep).
  - rewrite H. apply substr_nil.
Qed.

Lemma lstrip_substr (s : string) : substr (lstrip s) s.
Proof.
  induction s as [|c s IH]; simpl.
  - apply substr_refl.
  - destruct (isspace c).
    + now apply substr_cons.
    + apply substr_refl.
Qed.

Lemma rstrip_prefix (s : string) : exists b, s = rstrip s ++ b.
Proof.
  induction s as [|c s [b IH]]; simpl.
  - exists EmptyString. reflexivity.
  - destruct (rstrip s) as [|d r] eqn:Hr.
    + destruct (isspace c).
      * exists (String c s). reflexivity.
      * exists s. reflexivity.
    + exists b. cbn [append]. f_equal. exact IH.
Qed.

Lemma strip_substr (s : string) : substr (strip s) s.
Proof.
  unfold strip. apply substr_trans with (b := lstrip s).
  - destruct (rstrip_prefix (lstrip s)) as [b Hb].
    exists EmptyString, b. exact Hb.
  - apply lstrip_substr.
Qed.

Lemma class_name_of_substr (line : string) : substr (class_name_of line) line.
Proof.
  unfold class_name_of.
  eapply substr_trans; [apply strip_substr|].
  eapply substr_trans; [apply nth_split_substr|].
  apply nth_split_substr.
Qed.

(** ** Counting occurrences *)

Lemma occurrences_absent (sub s : string) :
  str_in sub s = false -> occurrences sub s = 0%nat.
Proof.
  induction s as [|c s IH]; cbn [str_in occurrences]; intros H;
    apply orb_false_iff in H; destruct H as [H1 H2]; rewrite H1; auto.
Qed.

Lemma occurrences_cons (sub : string) (x : ascii) (s : string) :
  occurrences sub (String x s) =
  ((if startswith (String x s) sub then 1 else 0) + occurrences sub s)%nat.
Proof. reflexivity. Qed.

(** A character that [p] lacks cuts every match short. *)
Lemma startswith_cut (c : ascii) (b : string) : forall p a,
  has_char c p = false ->
  startswith (a ++ String c b) p = startswith a p.
Proof.
  induction p as [|d p IH]; intros a Hc.
  - now rewrite !startswith_nil.
  - cbn [has_char] in Hc. apply orb_false_iff in Hc. destruct Hc as [Hd Hp].
    destruct a as [|x a]; cbn [append startswith].
    + rewrite Ascii.eqb_sym, Hd. reflexivity.
    + now rewrite IH.
Qed.

Lemma occurrences_cut (sub : string) (c : ascii) (b : string) (a : string) :
  sub <> EmptyString ->
  has_char c sub = false ->
  occurrences sub (a ++ String c b) =
  (occurrences sub a + occurrences sub (String c b))%nat.
Proof.
  intros Hne Hc. induction a as [|x a IH].
  - cbn [append]. destruct sub; [contradiction|reflexivity].
  - change (String x a ++ String c b) with (String x (a ++ String c b)).
    rewrite (occurrences_cons sub x (a ++ String c b)), (occurrences_cons sub x a).
    change (String x (a ++ String c b)) with (String x a ++ String c b).
    rewrite (startswith_cut c b sub (String x a) Hc), IH. lia.
Qed.

Lemma setup_function_shape (cog_name : string) :
  setup_function cog_name =
    (LF ++ LF ++ "async def setup") ++
    String "("%char
      (("bot):" ++ LF ++ "    await bot.add_cog") ++
       String "("%char (cog_name ++ String "("%char ("bot))" ++ LF))).
Proof. reflexivity. Qed.

Lemma str_in_patched (t cog_name : string) :
  str_in "async def setup" (t ++ setup_function cog_name) = true.
Proof.
  apply str_in_append_r. apply str_in_substr.
  exists (LF ++ LF), ("(bot):" ++ LF ++ "    await bot.add_cog(" ++ cog_name ++ "(bot))" ++ LF).
  reflexivity.
Qed.

Lemma occurrences_patched (t cog_name : string) :
  str_in "async def setup" t = false ->
  str_in "async def setup" cog_name = false ->
  occurrences "async def setup" (t ++ setup_function cog_name) = 1%nat.
Proof.
  intros Ht Hn.
  assert (Hm : "async def setup" <> EmptyString) by discriminate.
  rewrite setup_function_shape.
  change ((LF ++ LF ++ "async def setup") ++ ?x) with (String "010"%char ((LF ++ "async def setup") ++ x)).
  rewrite (occurrences_cut "async def setup" "010"%char _ t Hm) by reflexivity.
  rewrite (occurrences_absent _ _ Ht).
  change (String "010"%char ((LF ++ "async def setup") ++ ?x)) with ((LF ++ LF ++ "async def setup") ++ x).
  rewrite (occurrences_cut "async def setup" "("%char _ (LF ++ LF ++ "async def setup") Hm) by reflexivity.
  change (String "("%char (?a ++ ?x)) with ((String "("%char a) ++ x).
  rewrite (occurrences_cut "async def setup" "("%char _ _ Hm) by reflexivity.
  change (String "("%char (cog_name ++ ?x)) with ((String "("%char cog_name) ++ x).
  rewrite (occurrences_cut "async def setup" "("%char _ _ Hm) by reflexivity.
  rewrite (occurrences_cons "async def setup" "("%char cog_name), (occurrences_absent _ _ Hn).
  reflexivity.
Qed.

(** ** The linter *)

Lemma find_cog_name_find (lines : list string) :
  find_cog_name lines = option_map class_name_of (find is_class_line lines).
Proof.
  induction lines as [|l lines IH]; simpl; auto.
  destruct (is_class_line l); auto.
Qed.

Lemma verify_effect_other (E : env) (directory : path) (item y : name) (es : entries) :
  y <> item ->
  lookup item (verify_effect E directory y es) = lookup item es.
Proof.
  intros Hy. unfold verify_effect.
  destruct (is_cog_file y); auto.
  destruct (lookup y es) as [[m u t|]|]; auto.
  destruct (open_fails E (join directory y) || read_fails E (join directory y) || negb u); auto.
  destruct (patch_for t); auto.
  destruct (append_fails E (join directory y)); auto.
  now apply lookup_replace_neq.
Qed.

Section Linter.

Variable E : env.
Variable directory : path.
Variable item : name.
Variables (m : Z) (t patch : string).

Hypothesis cog_file : is_cog_file item = true.
Hypothesis to_patch : patch_for t = Some patch.
Hypothesis settled : patch_for (t ++ patch) = None.
Hypothesis open_ok : open_fails E (join directory item) = false.
Hypothesis read_ok : read_fails E (join directory item) = false.
Hypothesis append_ok : append_fails E (join directory item) = false.

Lemma verify_effect_self (es : entries) :
  lookup item es = Some (File m true t) ->
  lookup item (verify_effect E directory item es) = Some (File m true (t ++ patch)).
Proof.
  intros Hl. unfold verify_effect.
  rewrite cog_file, Hl, open_ok, read_ok, to_patch, append_ok. cbn [orb negb].
  apply lookup_replace_eq.
Qed.

Lemma verify_effect_self_patched (es : entries) :
  lookup item es = Some (File m true (t ++ patch)) ->
  verify_effect E directory item es = es.
Proof. intros Hl. eapply verify_effect_no_patch; eauto. Qed.

Lemma verify_loop_patches (l : list name) : forall es,
  (lookup item es = Some (File m true (t ++ patch)) ->
   lookup item (fold_left (fun es x => verify_effect E directory x es) l es) =
     Some (File m true (t ++ patch))) /\
  (lookup item es = Some (File m true t) -> In item l ->
   lookup item (fold_left (fun es x => verify_effect E directory x es) l es) =
     Some (File m true (t ++ patch))).
Proof.
  induction l as [|y l IH]; intros es; cbn [fold_left].
  - split; auto. intros _ [].
  - destruct (IH (verify_effect E directory y es)) as [IH1 IH2].
    destruct (String.eqb y item) eqn:Hy.
    + apply String.eqb_eq in Hy. subst y. split.
      * intros Hl. rewrite (verify_effect_self_patched es Hl) in *. auto.
      * intros Hl _. apply IH1. now apply verify_effect_self.
    + apply String.eqb_neq in Hy. split.
      * intros Hl. apply IH1. now rewrite verify_effect_other.
      * intros Hl [Hin|Hin]; [contradiction|].
        apply IH2; auto. now rewrite verify_effect_other.
Qed.

End Linter.

(** The claim as stated fails: for a file whose first class-marker line
    yields an empty class name, for a file that is not valid UTF-8, for a
    file to which appending is refused, for a file that cannot be opened
    or read, and when listing the directory is refused.  In each case the
    linter leaves the text as it is. *)
Lemma linter_patches_all_marked_fails :
  ~ linter_patches_all_marked (no_faults (octal 0 2 2)) ["cogs"]
      [("base.py", File (octal 6 4 4) true nameless_text)] /\
  ~ linter_patches_all_marked (no_faults (octal 0 2 2)) ["cogs"]
      [("greeter.py", File (octal 6 4 4) false cog_text)] /\
  ~ linter_patches_all_marked (refusing_append ["cogs"; "greeter.py"]) ["cogs"]
      [("greeter.py", File (octal 6 4 4) true cog_text)] /\
  ~ linter_patches_all_marked (refusing_open ["cogs"; "greeter.py"]) ["cogs"]
      [("greeter.py", File (octal 6 4 4) true cog_text)] /\
  ~ linter_patches_all_marked (refusing_read ["cogs"; "greeter.py"]) ["cogs"]
      [("greeter.py", File (octal 6 4 4) true cog_text)] /\
  ~ linter_patches_all_marked (refusing_listdir ["cogs"]) ["cogs"]
      [("greeter.py", File (octal 6 4 4) true cog_text)].
Proof.
  repeat split; intros H.
  - destruct (H "base.py" (octal 6 4 4) true nameless_text
                "BASE = (commands.Cog)  # base class")
      as (m' & u' & rest & H1 & H2 & _); try reflexivity.
    assert (Hrun : lookup "base.py"
              (fs (snd (verify_cog_files (no_faults (octal 0 2 2)) ["cogs"]
                          (start [("base.py", File (octal 6 4 4) true nameless_text)])))) =
            Some (File (octal 6 4 4) true nameless_text)) by (vm_compute; reflexivity).
    rewrite Hrun in H1. injection H1 as _ _ Hrest.
    subst rest. vm_compute in H2. discriminate.
  - destruct (H "greeter.py" (octal 6 4 4) false cog_text "class Greeter(commands.Cog):")
      as (m' & u' & rest & H1 & H2 & _); try reflexivity.
    assert (Hrun : lookup "greeter.py"
              (fs (snd (verify_cog_files (no_faults (octal 0 2 2)) ["cogs"]
                          (start [("greeter.py", File (octal 6 4 4) false cog_text)])))) =
            Some (File (octal 6 4 4) false cog_text)) by (vm_compute; reflexivity).
    rewrite Hrun in H1. injection H1 as _ _ Hrest.
    subst rest. vm_compute in H2. discriminate.
  - destruct (H "greeter.py" (octal 6 4 4) true cog_text "class Greeter(commands.Cog):")
      as (m' & u' & rest & H1 & H2 & _); try reflexivity.
    assert (Hrun : lookup "greeter.py"
              (fs (snd (verify_cog_files (refusing_append ["cogs"; "greeter.py"]) ["cogs"]
                          (start [("greeter.py", File (octal 6 4 4) true cog_text)])))) =
            Some (File (octal 6 4 4) true cog_text)) by (vm_compute; reflexivity).
    rewrite Hrun in H1. injection H1 as _ _ Hrest.
    subst rest. vm_compute in H2. discriminate.
  - destruct (H "greeter.py" (octal 6 4 4) true cog_text "class Greeter(commands.Cog):")
      as (m' & u' & rest & H1 & H2 & _); try reflexivity.
    assert (Hrun : lookup "greeter.py"
              (fs (snd (verify_cog_files (refusing_open ["cogs"; "greeter.py"]) ["cogs"]
                          (start [("greeter.py", File (octal 6 4 4) true cog_text)])))) =
            Some (File (octal 6 4 4) true cog_text)) by (vm_compute; reflexivity).
    rewrite Hrun in H1. injection H1 as _ _ Hrest.
    subst rest. vm_compute in H2. discriminate.
  - destruct (H "greeter.py" (octal 6 4 4) true cog_text "class Greeter(commands.Cog):")
      as (m' & u' & rest & H1 & H2 & _); try reflexivity.
    assert (Hrun : lookup "greeter.py"
              (fs (snd (verify_cog_files (refusing_read ["cogs"; "greeter.py"]) ["cogs"]
                          (start [("greeter.py", File (octal 6 4 4) true cog_text)])))) =
            Some (File (octal 6 4 4) true cog_text)) by (vm_compute; reflexivity).
    rewrite Hrun in H1. injection H1 as _ _ Hrest.
    subst rest. vm_compute in H2. discriminate.
  - destruct (H "greeter.py" (octal 6 4 4) true cog_text "class Greeter(commands.Cog):")
      as (m' & u' & rest & H1 & H2 & _); try reflexivity.
    assert (Hrun : lookup "greeter.py"
              (fs (snd (verify_cog_files (refusing_listdir ["cogs"]) ["cogs"]
                          (start [("greeter.py", File (octal 6 4 4) true cog_text)])))) =
            Some (File (octal 6 4 4) true cog_text)) by (vm_compute; reflexivity).
    rewrite Hrun in H1. injection H1 as _ _ Hrest.
    subst rest. vm_compute in H2. discriminate.
Qed.

(** C5, amended. A plugin file (name ending in
    [.py], not starting with two underscores) that is valid UTF-8, whose
    text has a class-marker line
    and no entry-point marker, and for which the name extracted from the
    first class-marker line is not empty, is patched by [verify_cog_files]
    when listing the directory and opening, reading and appending to the
    file are not refused: the function returns, the new text is the old
    text followed by the setup function that registers the extracted
    class name, and the entry-point marker occurs exactly once in it. *)
Theorem verify_cog_files_appends_setup (E : env) (directory : path) (w : world)
    (item : name) (m : Z) (t line : string) :
  lookup item (fs w) = Some (File m true t) ->
  endswith item ".py" = true ->
  startswith item "__" = false ->
  find is_class_line (split t LF) = Some line ->
  class_name_of line <> EmptyString ->
  str_in "async def setup" t = false ->
  listdir_fails E directory = false ->
  open_fails E (join directory item) = false ->
  read_fails E (join directory item) = false ->
  append_fails E (join directory item) = false ->
  fst (verify_cog_files E directory w) = Ok tt /\
  lookup item (fs (snd (verify_cog_files E directory w))) =
    Some (File m true (t ++ setup_function (class_name_of line))) /\
  occurrences "async def setup" (t ++ setup_function (class_name_of line)) = 1%nat.
Proof.
  intros Hl Hpy Hdunder Hfind Hname Hsetup Hlist Hopen Hread Happend.
  destruct (find_some _ _ Hfind) as [Hin Hline].
  unfold is_class_line in Hline. apply andb_true_iff in Hline. destruct Hline as [_ Hbase].
  assert (Hsub : substr line t) by (now apply (split_substr t LF)).
  assert (Hcog : str_in "commands.Cog" t = true).
  { apply str_in_mono with (a := line); auto.
    apply str_in_mono with (a := "(commands.Cog)"); [reflexivity|].
    now apply str_in_substr. }
  assert (Hpatch : patch_for t = Some (setup_function (class_name_of line))).
  { unfold patch_for. rewrite Hsetup, Hcog, find_cog_name_find, Hfind. cbn [option_map].
    destruct (class_name_of line); [contradiction|reflexivity]. }
  assert (Hsettled : patch_for (t ++ setup_function (class_name_of line)) = None).
  { unfold patch_for. now rewrite (str_in_patched t (class_name_of line)). }
  assert (Hcogfile : is_cog_file item = true).
  { unfold is_cog_file. now rewrite Hpy, Hdunder. }
  pose proof (verify_cog_files_effect E directory w) as Hrun.
  rewrite Hlist in Hrun. destruct Hrun as [Hok Hfs].
  split; [exact Hok|]. split.
  - rewrite Hfs. unfold verify_all.
    apply (verify_loop_patches E directory item m t _ Hcogfile Hpatch Hsettled
             Hopen Hread Happend (names (fs w)) (fs w)); auto.
    apply lookup_in_names. congruence.
  - apply occurrences_patched; auto.
    destruct (str_in "async def setup" (class_name_of line)) eqn:Hn; auto.
    assert (Habs : str_in "async def setup" t = true).
    { apply str_in_mono with (a := class_name_of line); auto.
      eapply substr_trans; [apply class_name_of_substr|exact Hsub]. }
    congruence.
Qed.

Lemma verify_cog_files_appends_setup_witness :
  let E := no_faults (octal 0 2 2) in
  let w := start [("greeter.py", File (octal 6 0 0) true cog_text)] in
  fst (verify_cog_files E ["cogs"] w) = Ok tt /\
  lookup "greeter.py" (fs (snd (verify_cog_files E ["cogs"] w))) =
    Some (File (octal 6 0 0) true
            (cog_text ++ setup_function (class_name_of "class Greeter(commands.Cog):"))) /\
  occurrences "async def setup"
    (cog_text ++ setup_function (class_name_of "class Greeter(commands.Cog):")) = 1%nat.
Proof.
  intros E w.
  apply (verify_cog_files_appends_setup E ["cogs"] w "greeter.py");
    try reflexivity.
  vm_compute. discriminate.
Defined.

(** ** Running the permission pass again *)

Lemma fix_items_app (E : env) (directory : path) (l1 l2 : entries) :
  fst (fix_items E directory (l1 ++ l2)) =
    if aborts E directory l1
    then (fst (fix_items E directory l1) ++ l2)%list
    else (fst (fix_items E directory l1) ++ fst (fix_items E directory l2))%list.
Proof.
  induction l1 as [|[item [mf u t|md sub]] rest IH]; cbn [app fix_items aborts].
  - reflexivity.
  - destruct (chmod_fails E (join directory item)); cbn [orb fst].
    + reflexivity.
    + rewrite IH. now destruct (aborts E directory rest).
  - cbn [fst]. rewrite IH. now destruct (aborts E directory rest).
Qed.

(** ** Items the loops leave alone *)

Lemma classify_quiet_view (E : env) (directory : path) (item : name) (es es' : entries) :
  view (lookup item es') = view (lookup item es) ->
  is_dir (lookup (item ++ ".py") es') = is_dir (lookup (item ++ ".py") es) ->
  classify_quiet E directory item es' = classify_quiet E directory item es.
Proof.
  unfold classify_quiet. intros Hv ->.
  destruct (lookup item es') as [[|]|], (lookup item es) as [[|]|]; simpl in Hv;
    try discriminate; auto.
  now inversion Hv.
Qed.

Lemma verify_quiet_view (E : env) (directory : path) (item : name) (es es' : entries) :
  view (lookup item es') = view (lookup item es) ->
  verify_quiet E directory item es' = verify_quiet E directory item es.
Proof.
  unfold verify_quiet. intros Hv.
  destruct (lookup item es') as [[|]|], (lookup item es) as [[|]|]; simpl in Hv;
    try discriminate; auto.
  now inversion Hv.
Qed.

Lemma classify_quiet_not_candidate (E : env) (directory : path) (item : name) (es : entries) :
  is_candidate item = false -> classify_quiet E directory item es = true.
Proof.
  intros H. unfold classify_quiet. rewrite H.
  now destruct (lookup item es) as [[|]|].
Qed.

Lemma classify_quiet_noop (E : env) (directory : path) (item : name) (es : entries) :
  classify_quiet E directory item es = true ->
  classify_effect E directory item es = (Ok tt, es).
Proof.
  unfold classify_quiet, classify_effect.
  destruct (lookup item es) as [[m u t|]|]; auto.
  destruct (is_candidate item); auto. cbn [negb orb].
  destruct (open_fails E (join directory item)); [discriminate|]. cbn [negb andb].
  destruct (read_fails E (join directory item)); auto.
  destruct (looks_like_python (take 500 t)); auto.
  destruct (rename_fails E (join directory item) (join directory (item ++ ".py"))); auto.
  cbn [negb orb]. destruct (lookup (item ++ ".py") es) as [[|]|]; auto; discriminate.
Qed.

Lemma py_neq (item : string) : item ++ ".py" <> item.
Proof.
  intros H. apply (f_equal String.length) in H. rewrite length_append in H. simpl in H. lia.
Qed.

Lemma classify_ok_quiet (E : env) (directory : path) (item : name) (es es' : entries) :
  classify_effect E directory item es = (Ok tt, es') ->
  classify_quiet E directory item es' = true.
Proof.
  unfold classify_effect.
  destruct (lookup item es) as [[m u t|]|] eqn:Hl.
  2,3: intros H; inversion H; subst; unfold classify_quiet; now rewrite Hl.
  destruct (is_candidate item) eqn:Hc.
  2: intros H; inversion H; subst; now apply classify_quiet_not_candidate.
  destruct (open_fails E (join directory item)) eqn:Ho; [discriminate|].
  destruct (read_fails E (join directory item)) eqn:Hr.
  { intros H; inversion H; subst. unfold classify_quiet. now rewrite Hl, Hc, Ho, Hr. }
  destruct (looks_like_python (take 500 t)) eqn:Hp.
  2: { intros H; inversion H; subst. unfold classify_quiet.
       rewrite Hl, Hc, Ho, Hr, Hp. reflexivity. }
  destruct (rename_fails E (join directory item) (join directory (item ++ ".py"))) eqn:Hn.
  { intros H; inversion H; subst. unfold classify_quiet.
    rewrite Hl, Hc, Ho, Hr, Hp, Hn. reflexivity. }
  assert (Hgone : classify_quiet E directory item
                    (replace (item ++ ".py") (File m u t) (remove item es)) = true).
  { unfold classify_quiet.
    rewrite lookup_replace_neq by apply py_neq. now rewrite lookup_remove_eq. }
  destruct (lookup (item ++ ".py") es) as [[|]|] eqn:Hd; intros H; inversion H; subst; auto.
  unfold classify_quiet. rewrite Hl, Hc, Ho, Hr, Hp, Hn, Hd. reflexivity.
Qed.

Lemma classify_other_quiet (E : env) (directory : path) (x y : name) (es : entries) :
  y <> x ->
  classify_quiet E directory x es = true ->
  classify_quiet E directory x (snd (classify_effect E directory y es)) = true.
Proof.
  intros Hy Hq.
  destruct (is_candidate x) eqn:Hc; [|now apply classify_quiet_not_candidate].
  unfold is_candidate in Hc. apply andb_true_iff in Hc. destruct Hc as [Hd Hp].
  apply negb_true_iff in Hd. apply negb_true_iff in Hp.
  destruct (classify_other E directory x Hp y es Hy) as [H1 H2].
  rewrite <- Hq. apply classify_quiet_view.
  - now rewrite H1.
  - now rewrite H2.
Qed.

Lemma classify_loop_quiet (E : env) (directory : path) (l : list name) : forall es es',
  loop_effect (classify_effect E directory) l es = (Ok tt, es') ->
  (forall x, In x l \/ classify_quiet E directory x es = true) ->
  forall x, classify_quiet E directory x es' = true.
Proof.
  induction l as [|y l IH]; intros es es' Hrun Hinv x; cbn [loop_effect] in Hrun.
  - inversion Hrun; subst. destruct (Hinv x) as [[]|H]; auto.
  - destruct (classify_effect E directory y es) as [[[]|e] es1] eqn:Hy; try discriminate.
    apply (IH es1 es' Hrun). intros z.
    destruct (String.eqb y z) eqn:Hyz.
    + apply String.eqb_eq in Hyz. subst z. right. eapply classify_ok_quiet; eauto.
    + apply String.eqb_neq in Hyz.
      destruct (Hinv z) as [[H|H]|H]; [contradiction|auto|].
      right. change es1 with (snd (Ok tt, es1)). rewrite <- Hy.
      now apply classify_other_quiet.
Qed.

Lemma absent_quiet (E : env) (directory : path) (x : name) (es : entries) :
  In x (names es) \/ classify_quiet E directory x es = true.
Proof.
  destruct (lookup x es) eqn:Hl.
  - left. apply lookup_in_names. congruence.
  - right. unfold classify_quiet. now rewrite Hl.
Qed.

(** The linter. *)
Lemma verify_quiet_noop (E : env) (directory : path) (item : name) (es : entries) :
  verify_quiet E directory item es = true -> verify_effect E directory item es = es.
Proof.
  unfold verify_quiet, verify_effect.
  destruct (lookup item es) as [[m u t|]|]; [|now destruct (is_cog_file item)..].
  destruct (is_cog_file item); auto. cbn [negb orb].
  destruct (open_fails E (join directory item)); auto.
  destruct (read_fails E (join directory item)); auto.
  destruct u; auto. cbn [negb orb].
  destruct (patch_for t); auto. now intros ->.
Qed.

Lemma patch_for_patched (t patch : string) :
  patch_for t = Some patch -> patch_for (t ++ patch) = None.
Proof.
  unfold patch_for. destruct (str_in "async def setup" t); [discriminate|].
  destruct (str_in "commands.Cog" t); [|discriminate].
  destruct (find_cog_name (split t LF)) as [[|c r]|]; try discriminate.
  intros H. inversion H. now rewrite str_in_patched.
Qed.

Ltac solve_or :=
  cbn [negb orb andb];
  repeat (rewrite ?orb_true_r, ?orb_true_l; cbn [negb orb andb]);
  try reflexivity.

Lemma verify_self_quiet (E : env) (directory : path) (item : name) (es : entries) :
  verify_quiet E directory item (verify_effect E directory item es) = true.
Proof.
  unfold verify_effect.
  destruct (is_cog_file item) eqn:Hc.
  2: { unfold verify_quiet. rewrite Hc. now destruct (lookup item es) as [[|]|]. }
  destruct (lookup item es) as [[m u t|]|] eqn:Hl.
  2,3: unfold verify_quiet; now rewrite Hl.
  destruct (open_fails E (join directory item)) eqn:Ho.
  { cbn [orb]. unfold verify_quiet. rewrite Hl, Ho. solve_or. }
  destruct (read_fails E (join directory item)) eqn:Hr.
  { cbn [orb]. unfold verify_quiet. rewrite Hl, Ho, Hr. solve_or. }
  destruct u.
  2: { cbn [orb negb]. unfold verify_quiet. rewrite Hl. solve_or. }
  cbn [orb negb].
  destruct (patch_for t) as [patch|] eqn:Hp.
  2: { unfold verify_quiet. rewrite Hl, Hp. solve_or. }
  destruct (append_fails E (join directory item)) eqn:Ha.
  { unfold verify_quiet. rewrite Hl, Hp, Ha. solve_or. }
  unfold verify_quiet. rewrite lookup_replace_eq, (patch_for_patched _ _ Hp).
  solve_or.
Qed.

Lemma verify_other_quiet (E : env) (directory : path) (x y : name) (es : entries) :
  y <> x ->
  verify_quiet E directory x (verify_effect E directory y es) =
  verify_quiet E directory x es.
Proof.
  intros Hy. apply verify_quiet_view. now rewrite verify_effect_other.
Qed.

Lemma verify_loop_quiet (E : env) (directory : path) (l : list name) : forall es,
  (forall x, In x l \/ verify_quiet E directory x es = true) ->
  forall x,
    verify_quiet E directory x
      (fold_left (fun es x => verify_effect E directory x es) l es) = true.
Proof.
  induction l as [|y l IH]; intros es Hinv x; cbn [fold_left].
  - destruct (Hinv x) as [[]|H]; auto.
  - apply IH. intros z.
    destruct (String.eqb y z) eqn:Hyz.
    + apply String.eqb_eq in Hyz. subst z. right. apply verify_self_quiet.
    + apply String.eqb_neq in Hyz.
      destruct (Hinv z) as [[H|H]|H]; [contradiction|auto|].
      right. now rewrite verify_other_quiet.
Qed.

Lemma verify_all_quiet (E : env) (directory : path) (es : entries) (x : name) :
  verify_quiet E directory x (verify_all E directory es) = true.
Proof.
  unfold verify_all. apply verify_loop_quiet. intros z.
  destruct (lookup z es) eqn:Hl.
  - left. apply lookup_in_names. congruence.
  - right. unfold verify_quiet. now rewrite Hl.
Qed.

Lemma verify_all_fixed (E : env) (directory : path) (es : entries) :
  (forall x, verify_quiet E directory x es = true) ->
  verify_all E directory es = es.
Proof.
  intros Hq. unfold verify_all. generalize (names es) as l.
  induction l as [|y l IH]; cbn [fold_left]; auto.
  now rewrite (verify_quiet_noop _ _ _ _ (Hq y)).
Qed.

Lemma classify_loop_fixed (E : env) (directory : path) (es : entries) (l : list name) :
  (forall x, classify_quiet E directory x es = true) ->
  loop_effect (classify_effect E directory) l es = (Ok tt, es).
Proof.
  intros Hq. induction l as [|y l IH]; cbn [loop_effect]; auto.
  now rewrite (classify_quiet_noop _ _ _ _ (Hq y)).
Qed.

(** ** What each step keeps *)

Lemma lookup_app_one (x k : name) (v : node) (es : entries) :
  lookup x (es ++ [(k, v)])%list =
    match lookup x es with
    | Some n => Some n
    | None => if String.eqb k x then Some v else None
    end.
Proof.
  induction es as [|[j w] es IH]; cbn [app lookup]; auto.
  destruct (String.eqb j x); auto.
Qed.

Lemma lookup_app_some (x k : name) (v : node) (es : entries) :
  lookup x es <> None -> lookup x (es ++ [(k, v)])%list = lookup x es.
Proof. intros H. rewrite lookup_app_one. destruct (lookup x es); congruence. Qed.

Lemma classify_effect_keeps (E : env) (directory : path) (z y : name) (es : entries) :
  is_candidate z = false -> lookup z es <> None ->
  lookup z (snd (classify_effect E directory y es)) <> None.
Proof.
  intros Hz Hl. unfold classify_effect.
  destruct (lookup y es) as [[m u t|]|] eqn:Hy; auto.
  destruct (is_candidate y) eqn:Hc; auto.
  destruct (open_fails E (join directory y)); auto.
  destruct (read_fails E (join directory y)); auto.
  destruct (looks_like_python (take 500 t)); auto.
  destruct (rename_fails E (join directory y) (join directory (y ++ ".py"))); auto.
  assert (Hyz : y <> z) by congruence.
  assert (Hkeep : lookup z (replace (y ++ ".py") (File m u t) (remove y es)) <> None).
  { destruct (String.eqb (y ++ ".py") z) eqn:Hpz.
    - apply String.eqb_eq in Hpz. subst z. rewrite lookup_replace_eq. discriminate.
    - apply String.eqb_neq in Hpz.
      rewrite lookup_replace_neq, lookup_remove_neq; auto. }
  destruct (lookup (y ++ ".py") es) as [[|]|]; auto.
Qed.

Lemma classify_loop_keeps (E : env) (directory : path) (z : name) (l : list name) :
  is_candidate z = false ->
  forall es, lookup z es <> None ->
  lookup z (snd (loop_effect (classify_effect E directory) l es)) <> None.
Proof.
  intros Hz. induction l as [|y l IH]; intros es Hl; cbn [loop_effect]; auto.
  pose proof (classify_effect_keeps E directory z y es Hz Hl) as Hk.
  destruct (classify_effect E directory y es) as [[[]|e] es1]; auto.
Qed.

Lemma lookup_app_new (k : name) (v : node) (es : entries) :
  lookup k (es ++ [(k, v)])%list <> None.
Proof.
  rewrite lookup_app_one, String.eqb_refl. destruct (lookup k es); discriminate.
Qed.

Lemma not_none_is_some (o : option node) : o <> None <-> is_some o = true.
Proof. destruct o; simpl; split; congruence. Qed.

(** ** More on the permission pass *)

(** X2. [fix_permissions] changes permission bits and nothing else, whatever
    the operating system refuses: names, order, kinds, encodings and texts
    of the whole tree are those it found. *)
Theorem fix_permissions_only_changes_modes (E : env) (n : node) : forall directory,
  erase_modes (fst (fix_permissions E directory n)) = erase_modes n.
Proof.
  induction n as [m u t|m items IH] using node_rect'; intros directory.
  - unfold fix_permissions. now destruct (chmod_fails E directory).
  - rewrite fix_permissions_dir. cbv zeta.
    destruct (listdir_fails E directory); cbn [fst erase_modes]; [reflexivity|].
    f_equal. clear m.
    induction items as [|[item [mf u t|md sub]] rest IHrest]; cbn [fix_items].
    + reflexivity.
    + destruct (chmod_fails E (join directory item)); cbn [fst map]; [reflexivity|].
      cbn [erase_modes]. f_equal. apply IHrest. now inversion IH.
    + cbn [fst map]. inversion IH as [|? ? Hsub Hrest]; subst. cbn [snd] in Hsub.
      rewrite Hsub. f_equal. now apply IHrest.
Qed.

(** X3. When listing works and [chmod] is refused on no regular file that
    lies directly in the directory, the loop reaches every entry: each
    regular file gets mode 0o644 and each subdirectory is handed to
    [fix_permissions], whatever is refused on the directory itself or
    deeper in the tree. *)
Theorem fix_permissions_reaches_every_entry (E : env) (directory : path)
    (m : Z) (items : entries) :
  listdir_fails E directory = false ->
  aborts E directory items = false ->
  fst (fix_permissions E directory (Dir m items)) =
    Dir (if chmod_fails E directory then m else octal 7 5 5)
        (map (fix_entry E directory) items).
Proof.
  intros Hl Ha. rewrite fix_permissions_dir. cbv zeta. rewrite Hl. cbn [fst].
  f_equal. induction items as [|[item [mf u t|md sub]] rest IH]; cbn [fix_items aborts] in *.
  - reflexivity.
  - apply orb_false_iff in Ha. destruct Ha as [Hc Ha]. rewrite Hc. cbn [fst map].
    now rewrite IH.
  - cbn [fst map]. now rewrite IH.
Qed.

Lemma fix_permissions_reaches_every_entry_witness :
  fst (fix_permissions (refusing_chmod ["cogs"; "sub"; "c.py"]) ["cogs"]
         (Dir (octal 7 0 0)
            [("sub", Dir (octal 7 0 0) [("c.py", File (octal 6 0 0) true "c")]);
             ("b.py", File (octal 6 0 0) true "b")])) =
  Dir (if chmod_fails (refusing_chmod ["cogs"; "sub"; "c.py"]) ["cogs"]
       then octal 7 0 0 else octal 7 5 5)
      (map (fix_entry (refusing_chmod ["cogs"; "sub"; "c.py"]) ["cogs"])
         [("sub", Dir (octal 7 0 0) [("c.py", File (octal 6 0 0) true "c")]);
          ("b.py", File (octal 6 0 0) true "b")]).
Proof.
  apply fix_permissions_reaches_every_entry; reflexivity.
Defined.

(** X4. The loop stops at the first regular file on which [chmod] is
    refused: the entries before it are treated, that file and every entry
    listed after it are left exactly as they were. *)
Theorem fix_permissions_stops_at_refused_file (E : env) (directory : path)
    (md : Z) (before : entries) (item : name) (m : Z) (u : bool) (t : string)
    (after : entries) :
  listdir_fails E directory = false ->
  aborts E directory before = false ->
  chmod_fails E (join directory item) = true ->
  fst (fix_permissions E directory (Dir md (before ++ (item, File m u t) :: after))) =
    Dir (if chmod_fails E directory then md else octal 7 5 5)
        (map (fix_entry E directory) before ++ (item, File m u t) :: after).
Proof.
  intros Hl Ha Hc. rewrite fix_permissions_dir. cbv zeta. rewrite Hl. cbn [fst].
  f_equal. rewrite fix_items_app, Ha. f_equal.
  - clear Hc. induction before as [|[k [mf u' t'|md' sub]] rest IH];
      cbn [fix_items aborts] in *.
    + reflexivity.
    + apply orb_false_iff in Ha. destruct Ha as [Hk Ha]. rewrite Hk. cbn [fst map].
      now rewrite IH.
    + cbn [fst map]. now rewrite IH.
  - cbn [fix_items]. now rewrite Hc.
Qed.

Lemma fix_permissions_stops_at_refused_file_witness :
  fst (fix_permissions (refusing_chmod ["cogs"; "b.py"]) ["cogs"]
         (Dir (octal 7 0 0)
            ([("a.py", File (octal 6 0 0) true "a")] ++
             ("b.py", File (octal 6 0 0) true "b") ::
             [("c.py", File (octal 6 0 0) true "c")]))) =
  Dir (if chmod_fails (refusing_chmod ["cogs"; "b.py"]) ["cogs"]
       then octal 7 0 0 else octal 7 5 5)
      (map (fix_entry (refusing_chmod ["cogs"; "b.py"]) ["cogs"])
         [("a.py", File (octal 6 0 0) true "a")] ++
       ("b.py", File (octal 6 0 0) true "b") ::
       [("c.py", File (octal 6 0 0) true "c")]).
Proof.
  apply fix_permissions_stops_at_refused_file; reflexivity.
Defined.

(** ** Running a pass again *)

Lemma fix_permissions_is_dir (E : env) (directory : path) (m : Z) (items : entries) :
  exists m' items', fst (fix_permissions E directory (Dir m items)) = Dir m' items'.
Proof.
  rewrite fix_permissions_dir. cbv zeta.
  destruct (listdir_fails E directory); cbn [fst]; eauto.
Qed.

(** X5. Running [fix_permissions] on the tree it has just left gives the
    same tree again and logs the same records: the pass reaches, or fails
    to reach, exactly the entries it did the first time. *)
Theorem fix_permissions_twice (E : env) (n : node) : forall directory,
  fix_permissions E directory (fst (fix_permissions E directory n)) =
  fix_permissions E directory n.
Proof.
  induction n as [m u t|m items IH] using node_rect'; intros directory.
  - unfold fix_permissions.
    destruct (chmod_fails E directory) eqn:Hc; cbn [fst]; rewrite Hc; reflexivity.
  - rewrite fix_permissions_dir. cbv zeta.
    destruct (listdir_fails E directory) eqn:Hl; cbn [fst].
    + rewrite fix_permissions_dir. cbv zeta. rewrite Hl.
      now destruct (chmod_fails E directory).
    + rewrite fix_permissions_dir. cbv zeta. rewrite Hl.
      assert (Hitems : fix_items E directory (fst (fix_items E directory items)) =
                       fix_items E directory items).
      { clear m Hl. induction items as [|[item [mf u t|md sub]] rest IHrest];
          cbn [fix_items].
        - reflexivity.
        - destruct (chmod_fails E (join directory item)) eqn:Hc; cbn [fst fix_items].
          + now rewrite Hc.
          + rewrite Hc. rewrite IHrest by (now inversion IH). reflexivity.
        - cbn [fst].
          inversion IH as [|? ? Hsub Hrest]; subst. cbn [snd] in Hsub.
          destruct (fix_permissions_is_dir E (join directory item) md sub)
            as (md' & sub' & Hfix).
          specialize (Hsub (join directory item)). rewrite Hfix in Hsub.
          rewrite Hfix. cbn [fix_items]. rewrite Hsub, (IHrest Hrest), Hfix.
          reflexivity. }
      rewrite Hitems. now destruct (chmod_fails E directory).
Qed.

(** ** What the linter leaves alone *)

Lemma verify_effect_unmarked (E : env) (directory : path) (y k : name) (es : entries) :
  may_patch k (lookup k es) = false ->
  lookup k (verify_effect E directory y es) = lookup k es.
Proof.
  intros Hk. destruct (String.eqb y k) eqn:Hy.
  - apply String.eqb_eq in Hy. subst y.
    destruct (lookup k es) as [[m u t|m items]|] eqn:Hl.
    + destruct (is_cog_file k) eqn:Hc.
      * rewrite (verify_effect_no_patch E directory k es m u t Hl); auto.
        unfold patch_for. unfold may_patch in Hk. rewrite Hc in Hk. cbn [andb] in Hk.
        destruct (str_in "async def setup" t); auto. cbn [negb andb] in Hk.
        now rewrite Hk.
      * now rewrite verify_effect_not_cog.
    + unfold verify_effect. rewrite Hl. now destruct (is_cog_file k).
    + unfold verify_effect. rewrite Hl. now destruct (is_cog_file k).
  - apply String.eqb_neq in Hy. now apply verify_effect_other.
Qed.

Lemma verify_all_unmarked (E : env) (directory : path) (k : name) (es : entries) :
  may_patch k (lookup k es) = false ->
  lookup k (verify_all E directory es) = lookup k es.
Proof.
  unfold verify_all. generalize (names es) as l. intros l. revert es.
  induction l as [|y l IH]; intros es Hk; cbn [fold_left]; auto.
  pose proof (verify_effect_unmarked E directory y k es Hk) as H1.
  rewrite IH; auto. now rewrite H1.
Qed.

(** X15. [verify_cog_files] changes a regular file only when its name ends
    in [.py] and does not start with two underscores, and its text has the
    class marker and lacks the entry-point marker; every other entry keeps
    its node exactly, whatever is refused. *)
Theorem verify_cog_files_changes_only_marked (E : env) (directory : path) (w : world)
    (k : name) :
  may_patch k (lookup k (fs w)) = false ->
  lookup k (fs (snd (verify_cog_files E directory w))) = lookup k (fs w).
Proof.
  intros Hk. pose proof (verify_cog_files_effect E directory w) as H.
  destruct (listdir_fails E directory); destruct H as [_ ->]; auto.
  now apply verify_all_unmarked.
Qed.

Lemma verify_cog_files_changes_only_marked_witness :
  lookup "done.py"
    (fs (snd (verify_cog_files (no_faults (octal 0 2 2)) ["cogs"]
                (start [("done.py", File (octal 6 0 0) true
                           ("class A(commands.Cog):" ++ LF ++ "async def setup(bot): pass"))])))) =
  lookup "done.py"
    (fs (start [("done.py", File (octal 6 0 0) true
                   ("class A(commands.Cog):" ++ LF ++ "async def setup(bot): pass"))])).
Proof.
  apply verify_cog_files_changes_only_marked. reflexivity.
Defined.

(** ** More on the linter *)

Lemma appended_refl (a : name * node) : appended a a.
Proof.
  destruct a as [k [m u t|m items]]; split; simpl; auto.
  repeat split. exists EmptyString. now rewrite append_nil_r.
Qed.

Lemma appended_trans (a b c : name * node) : appended a b -> appended b c -> appended a c.
Proof.
  destruct a as [ka [ma ua ta|ma ia]], b as [kb [mb ub tb|mb ib]], c as [kc [mc uc tc|mc ic]];
    unfold appended; simpl; intros [H1 H2] [H3 H4]; try contradiction;
    split; try congruence.
  destruct H2 as (-> & -> & r1 & ->), H4 as (-> & -> & r2 & ->).
  repeat split. exists (r1 ++ r2). now rewrite append_assoc.
Qed.

Lemma Forall2_appended_refl (l : entries) : Forall2 appended l l.
Proof. induction l; constructor; auto. apply appended_refl. Qed.

Lemma Forall2_appended_trans (l1 l2 l3 : entries) :
  Forall2 appended l1 l2 -> Forall2 appended l2 l3 -> Forall2 appended l1 l3.
Proof.
  intros H. revert l3. induction H; intros l3 H3; inversion H3; subst; constructor.
  - eapply appended_trans; eauto.
  - auto.
Qed.

Lemma replace_appended (y : name) (m : Z) (u : bool) (t rest : string) (es : entries) :
  lookup y es = Some (File m u t) ->
  Forall2 appended es (replace y (File m u (t ++ rest)) es).
Proof.
  induction es as [|[k v] es IH]; cbn [lookup replace]; intros H; try discriminate.
  destruct (String.eqb k y).
  - inversion H; subst. constructor; [|apply Forall2_appended_refl].
    split; simpl; eauto.
  - constructor; auto. apply appended_refl.
Qed.

Lemma verify_effect_appended (E : env) (directory : path) (y : name) (es : entries) :
  Forall2 appended es (verify_effect E directory y es).
Proof.
  unfold verify_effect.
  destruct (is_cog_file y); [|apply Forall2_appended_refl].
  destruct (lookup y es) as [[m u t|]|] eqn:Hl; try apply Forall2_appended_refl.
  destruct (open_fails E (join directory y) || read_fails E (join directory y) || negb u);
    [apply Forall2_appended_refl|].
  destruct (patch_for t); [|apply Forall2_appended_refl].
  destruct (append_fails E (join directory y)); [apply Forall2_appended_refl|].
  now apply replace_appended.
Qed.

Lemma verify_all_appended (E : env) (directory : path) (es : entries) :
  Forall2 appended es (verify_all E directory es).
Proof.
  unfold verify_all. generalize (names es) as l. intros l. revert es.
  induction l as [|y l IH]; intros es; cbn [fold_left].
  - apply Forall2_appended_refl.
  - eapply Forall2_appended_trans; [apply verify_effect_appended|apply IH].
Qed.

(** X14. [verify_cog_files] only appends: whatever is refused and however it
    ends, the directory keeps its entries in their order, every directory
    in it is untouched, and every regular file keeps its mode and has its
    old text as a prefix of its new text. *)
Theorem verify_cog_files_only_appends (E : env) (directory : path) (w : world) :
  Forall2 appended (fs w) (fs (snd (verify_cog_files E directory w))).
Proof.
  pose proof (verify_cog_files_effect E directory w) as H.
  destruct (listdir_fails E directory); destruct H as [_ ->].
  - apply Forall2_appended_refl.
  - apply verify_all_appended.
Qed.

(** X16. No failure on a single file ends [verify_cog_files]: it raises
    exactly when listing the directory is refused, and returns otherwise,
    whatever [open], [read], decoding or appending do. *)
Theorem verify_cog_files_raises_only_on_listing (E : env) (directory : path) (w : world) :
  fst (verify_cog_files E directory w) =
    if listdir_fails E directory then Raise (OSError "listdir" directory) else Ok tt.
Proof.
  pose proof (verify_cog_files_effect E directory w) as H.
  now destruct (listdir_fails E directory); destruct H as [-> _].
Qed.

(** X17. Running [verify_cog_files] a second time changes nothing: a file it
    patched has the entry-point marker, and a file it left alone is left
    alone again. *)
Theorem verify_cog_files_twice (E : env) (directory : path) (w : world) :
  fs (snd (verify_cog_files E directory (snd (verify_cog_files E directory w)))) =
  fs (snd (verify_cog_files E directory w)).
Proof.
  pose proof (verify_cog_files_effect E directory w) as H1.
  pose proof (verify_cog_files_effect E directory (snd (verify_cog_files E directory w)))
    as H2.
  destruct (listdir_fails E directory); destruct H1 as [_ H1]; destruct H2 as [_ H2];
    rewrite H2, H1; auto.
  apply verify_all_fixed. intros x. apply verify_all_quiet.
Qed.

(** ** Calling the bootstrap again *)

(** X1. Once [ensure_cogs_directory] has returned, calling it again does
    nothing at all: it returns the same path, the filesystem is the one it
    found and no record is logged. *)
Theorem ensure_cogs_directory_twice (E : env) (w : world) (d : name) (w' : world) :
  ensure_cogs_directory E w = (Ok d, w') ->
  ensure_cogs_directory E w' = (Ok d, w').
Proof.
  intros H. destruct (ensure_cogs_directory_ok E w d w' H) as [-> Hd].
  destruct (lookup cogs (fs w')) as [[|m es]|] eqn:Hl; try discriminate.
  now apply ensure_cogs_directory_dir with (m := m) (es := es).
Qed.

Lemma ensure_cogs_directory_twice_witness :
  ensure_cogs_directory (no_faults (octal 0 2 2))
    {| fs := [("cogs.bak", File (octal 6 4 4) true "old");
              ("cogs", Dir (octal 7 5 5) [])];
       logs := [Log ERROR "Cogs path exists but is not a directory: {cogs_dir}" [Path ["cogs"]];
                Log INFO "Renaming to {backup_path} and creating directory" [Path ["cogs.bak"]]] |} =
  (Ok "cogs",
   {| fs := [("cogs.bak", File (octal 6 4 4) true "old");
             ("cogs", Dir (octal 7 5 5) [])];
      logs := [Log ERROR "Cogs path exists but is not a directory: {cogs_dir}" [Path ["cogs"]];
               Log INFO "Renaming to {backup_path} and creating directory" [Path ["cogs.bak"]]] |}).
Proof.
  apply (ensure_cogs_directory_twice (no_faults (octal 0 2 2))
           (start [("cogs", File (octal 6 4 4) true "old")])).
  reflexivity.
Defined.

Lemma frame_when (k : name) (b : bool) (m : M unit) : frame k m -> frame k (when b m).
Proof. intros H. destruct b; [exact H | apply frame_ret]. Qed.

Lemma frame_makedirs (E : env) (directory : path) (item k : name) :
  item <> k -> frame k (makedirs E directory item).
Proof.
  intros H v w Hw. unfold makedirs. unfold_calls. cbn [fs logs fst snd].
  destruct (makedirs_fails E (directory ++ [item])%list); cbn [fs logs fst snd]; auto.
  destruct (lookup item (fs w)) as [[|]|]; cbn [fs logs fst snd]; auto.
  now rewrite lookup_replace_neq.
Qed.

Lemma frame_rename (E : env) (directory : path) (src dst k : name) :
  src <> k -> dst <> k -> frame k (rename E directory src dst).
Proof.
  intros Hs Hd v w Hw. unfold rename. unfold_calls. cbn [fs logs fst snd].
  destruct (rename_fails E _ _); cbn [fs logs fst snd]; auto.
  destruct (lookup src (fs w)) as [[|]|]; cbn [fs logs fst snd]; auto;
    destruct (String.eqb src dst); cbn [fs logs fst snd]; auto;
    destruct (lookup dst (fs w)) as [[|? [|]]|]; cbn [fs logs fst snd]; auto;
    rewrite lookup_replace_neq, lookup_remove_neq by assumption; auto.
Qed.

Lemma frame_ensure_cogs_directory (E : env) (k : name) :
  k <> cogs -> k <> "cogs.bak" -> frame k (ensure_cogs_directory E).
Proof.
  intros Hc Hb.
  assert (Hc' : cogs <> k) by congruence.
  assert (Hb' : (cogs ++ ".bak")%string <> k) by (intros H; apply Hb; now rewrite <- H).
  unfold ensure_cogs_directory, path_exists, isdir, logger_info, logger_error.
  repeat first
    [ apply frame_emit
    | apply frame_ret
    | apply frame_get_fs
    | apply frame_when
    | apply frame_makedirs; assumption
    | apply frame_rename; assumption
    | apply frame_bind; [|intros ?] ].
Qed.

(** ** What the classifier leaves alone *)

Lemma classify_effect_kept (E : env) (directory : path) (y k : name) (es : entries) :
  kept_by_classifier k es ->
  lookup k (snd (classify_effect E directory y es)) = lookup k es.
Proof.
  intros [_ Hk]. unfold classify_effect.
  destruct (lookup y es) as [[m u t|]|] eqn:Hy; auto.
  destruct (is_candidate y) eqn:Hc; auto.
  destruct (open_fails E (join directory y)); auto.
  destruct (read_fails E (join directory y)); auto.
  destruct (looks_like_python (take 500 t)); auto.
  destruct (rename_fails E (join directory y) (join directory (y ++ ".py"))); auto.
  unfold is_candidate in Hc. apply andb_prop in Hc. destruct Hc as [Hd _].
  apply negb_true_iff in Hd.
  assert (Hyk : y <> k).
  { intros ->. destruct Hk as [Hk|Hk]; [congruence|]. rewrite Hy in Hk. discriminate. }
  destruct (lookup (y ++ ".py") es) as [[|]|] eqn:Hpy; cbn [snd]; auto;
    (rewrite lookup_replace_neq, lookup_remove_neq; auto;
     intros <-; destruct Hk as [Hk|Hk];
     [ rewrite (dunder_append y Hd) in Hk; discriminate
     | rewrite Hpy in Hk; discriminate ]).
Qed.

Lemma classify_loop_kept (E : env) (directory : path) (k : name) (l : list name) :
  forall es, kept_by_classifier k es ->
  lookup k (snd (loop_effect (classify_effect E directory) l es)) = lookup k es.
Proof.
  induction l as [|y l IH]; intros es Hk; cbn [loop_effect]; auto.
  pose proof (classify_effect_kept E directory y k es Hk) as H1.
  destruct (classify_effect E directory y es) as [[[]|e] es1]; cbn [snd] in *; auto.
  rewrite <- H1. apply IH. destruct Hk as [Hn Hk]. unfold kept_by_classifier.
  rewrite H1. auto.
Qed.

Lemma ensure_python_files_effect_kept (E : env) (directory : path) (k : name) (es : entries) :
  kept_by_classifier k es ->
  lookup k (snd (ensure_python_files_effect E directory es)) = lookup k es.
Proof.
  intros Hk. unfold ensure_python_files_effect.
  destruct (is_some (lookup "__init__.py" es)).
  - destruct (listdir_fails E directory); auto. now apply classify_loop_kept.
  - destruct (write_fails E (join directory "__init__.py")); auto.
    assert (Hl : lookup k (es ++ [("__init__.py", File (new_file_mode E) true init_text)])%list
                 = lookup k es) by (apply lookup_app_some, Hk).
    destruct (listdir_fails E directory); auto.
    rewrite <- Hl. apply classify_loop_kept. unfold kept_by_classifier.
    rewrite Hl. exact Hk.
Qed.

(** X7. [ensure_python_files] leaves every subdirectory as it is, under the
    name it had: a directory is never read, renamed or replaced by a
    renamed file, whatever is refused and however the call ends. *)
Theorem ensure_python_files_keeps_directories (E : env) (directory : path) (w : world)
    (k : name) (m : Z) (items : entries) :
  lookup k (fs w) = Some (Dir m items) ->
  lookup k (fs (snd (ensure_python_files E directory w))) = Some (Dir m items).
Proof.
  intros H. destruct (ensure_python_files_is_effect E directory w) as [_ ->].
  rewrite ensure_python_files_effect_kept; auto.
  split; [congruence|]. right. now rewrite H.
Qed.

Lemma ensure_python_files_keeps_directories_witness :
  lookup "tool.py"
    (fs (snd (ensure_python_files (no_faults (octal 0 2 2)) ["cogs"]
                (start [("tool", File (octal 6 4 4) true python_text);
                        ("tool.py", Dir (octal 7 0 0) [])])))) =
  Some (Dir (octal 7 0 0) []).
Proof.
  apply ensure_python_files_keeps_directories. reflexivity.
Defined.

(** X8. [ensure_python_files] leaves every entry whose name starts with two
    underscores as it is: such a file is not examined, and no renamed file
    takes its name. *)
Theorem ensure_python_files_keeps_dunder_names (E : env) (directory : path) (w : world)
    (k : name) :
  startswith k "__" = true ->
  lookup k (fs w) <> None ->
  lookup k (fs (snd (ensure_python_files E directory w))) = lookup k (fs w).
Proof.
  intros Hd H. destruct (ensure_python_files_is_effect E directory w) as [_ ->].
  apply ensure_python_files_effect_kept. split; auto.
Qed.

Lemma ensure_python_files_keeps_dunder_names_witness :
  lookup "__main__"
    (fs (snd (ensure_python_files (no_faults (octal 0 2 2)) ["cogs"]
                (start [("__main__", File (octal 6 0 0) true python_text)])))) =
  lookup "__main__" (fs (start [("__main__", File (octal 6 0 0) true python_text)])).
Proof.
  apply ensure_python_files_keeps_dunder_names; [reflexivity | discriminate].
Defined.

Lemma classify_loop_raises (E : env) (directory : path) (l : list name) :
  forall es e,
    fst (loop_effect (classify_effect E directory) l es) = Raise e ->
    exists item,
      In item l /\ is_candidate item = true /\
      e = OSError "open" (join directory item) /\
      open_fails E (join directory item) = true.
Proof.
  induction l as [|y l IH]; intros es e; cbn [loop_effect]; [discriminate|].
  destruct (classify_effect E directory y es) as [[[]|e'] es1] eqn:Hy.
  - intros H. destruct (IH es1 e H) as (item & Hin & Hrest).
    exists item. split; [now right | exact Hrest].
  - cbn [fst]. intros H. injection H as ->. exists y. split; [now left|].
    revert Hy. unfold classify_effect.
    destruct (lookup y es) as [[m u t|]|]; try discriminate.
    destruct (is_candidate y); try discriminate.
    destruct (open_fails E (join directory y)) eqn:Ho.
    + intros H. injection H as <- _. auto.
    + destruct (read_fails E (join directory y)); try discriminate.
      destruct (looks_like_python (take 500 t)); try discriminate.
      destruct (rename_fails E (join directory y) (join directory (y ++ ".py")));
        try discriminate.
      destruct (lookup (y ++ ".py") es) as [[|]|]; discriminate.
Qed.

(** X10. The only failures that end [ensure_python_files] are those of the
    calls outside its [try]: writing [__init__.py], listing the directory,
    and opening a candidate file.  A refused read, a refused rename and a
    rename onto a directory are caught, and the loop goes on with the next
    entry. *)
Theorem ensure_python_files_raises_only_outside_try (E : env) (directory : path) (w : world) :
  match fst (ensure_python_files E directory w) with
  | Ok _ => True
  | Raise e =>
      (e = OSError "open" (join directory "__init__.py") /\
       write_fails E (join directory "__init__.py") = true) \/
      (e = OSError "listdir" directory /\ listdir_fails E directory = true) \/
      (exists item,
         is_candidate item = true /\
         e = OSError "open" (join directory item) /\
         open_fails E (join directory item) = true)
  end.
Proof.
  destruct (ensure_python_files_is_effect E directory w) as [-> _].
  unfold ensure_python_files_effect.
  assert (Hloop : forall es,
    match fst (if listdir_fails E directory
               then (Raise (OSError "listdir" directory), es)
               else loop_effect (classify_effect E directory) (names es) es) with
    | Ok _ => True
    | Raise e =>
        (e = OSError "listdir" directory /\ listdir_fails E directory = true) \/
        (exists item,
           is_candidate item = true /\
           e = OSError "open" (join directory item) /\
           open_fails E (join directory item) = true)
    end).
  { intros es. destruct (listdir_fails E directory) eqn:Hl; cbn [fst]; auto.
    destruct (fst (loop_effect (classify_effect E directory) (names es) es)) as [|e] eqn:Hr;
      auto.
    destruct (classify_loop_raises E directory _ _ _ Hr) as (item & _ & H).
    right. eauto. }
  destruct (lookup "__init__.py" (fs w)) eqn:Hi; cbn [is_some].
  - specialize (Hloop (fs w)).
    destruct (fst (if listdir_fails E directory then _ else _)); auto.
  - destruct (write_fails E (join directory "__init__.py")) eqn:Hw; cbn [fst]; auto.
    match goal with |- context [loop_effect _ (names ?es) _] => specialize (Hloop es) end.
    destruct (fst (if listdir_fails E directory then _ else _)); auto.
Qed.

(** X11. When writing [__init__.py], listing the directory and opening
    its files are not refused, [ensure_python_files] returns, whatever
    reading and renaming do. *)
Theorem ensure_python_files_returns (E : env) (directory : path) (w : world) :
  write_fails E (join directory "__init__.py") = false ->
  listdir_fails E directory = false ->
  (forall item, open_fails E (join directory item) = false) ->
  fst (ensure_python_files E directory w) = Ok tt.
Proof.
  intros Hw Hl Ho.
  destruct (ensure_python_files_is_effect E directory w) as [-> _].
  assert (Hloop : forall l es, fst (loop_effect (classify_effect E directory) l es) = Ok tt).
  { intros l es.
    destruct (fst (loop_effect (classify_effect E directory) l es)) as [[]|e] eqn:Hr; auto.
    destruct (classify_loop_raises E directory _ _ _ Hr) as (item & _ & _ & _ & H).
    rewrite Ho in H. discriminate. }
  unfold ensure_python_files_effect. rewrite Hw, Hl.
  destruct (is_some (lookup "__init__.py" (fs w))); apply Hloop.
Qed.

Lemma ensure_python_files_returns_witness :
  fst (ensure_python_files refusing_read_and_rename ["cogs"]
         (start [("tool", File (octal 6 4 4) true python_text)])) = Ok tt.
Proof.
  apply ensure_python_files_returns; reflexivity.
Defined.

(** X12. When [ensure_python_files] returns, the directory has an entry
    [__init__.py]. *)
Theorem ensure_python_files_marks_package (E : env) (directory : path) (w : world) :
  fst (ensure_python_files E directory w) = Ok tt ->
  lookup "__init__.py" (fs (snd (ensure_python_files E directory w))) <> None.
Proof.
  destruct (ensure_python_files_is_effect E directory w) as [-> ->].
  unfold ensure_python_files_effect.
  destruct (lookup "__init__.py" (fs w)) eqn:Hi; cbn [is_some].
  - destruct (listdir_fails E directory); [discriminate|]. intros _.
    apply classify_loop_keeps; [reflexivity | congruence].
  - destruct (write_fails E (join directory "__init__.py")); [discriminate|].
    destruct (listdir_fails E directory); [discriminate|]. intros _.
    apply classify_loop_keeps; [reflexivity | apply lookup_app_new].
Qed.

Lemma ensure_python_files_marks_package_witness :
  lookup "__init__.py"
    (fs (snd (ensure_python_files (no_faults (octal 0 2 2)) ["cogs"]
                (start [("tool", File (octal 6 4 4) true python_text)])))) <> None.
Proof.
  apply ensure_python_files_marks_package. reflexivity.
Defined.

Lemma classify_effect_stays (E : env) (directory : path) (y k : name) (es : entries)
    (m : Z) (u : bool) (t : string) :
  endswith k ".py" = false ->
  stays E directory k t = true ->
  lookup k es = Some (File m u t) ->
  lookup k (snd (classify_effect E directory y es)) = Some (File m u t).
Proof.
  intros Hpy Hst Hl. destruct (String.eqb y k) eqn:Hy.
  - apply String.eqb_eq in Hy. subst y. unfold classify_effect. rewrite Hl.
    unfold stays in Hst.
    destruct (is_candidate k); auto.
    destruct (open_fails E (join directory k)); auto.
    destruct (read_fails E (join directory k)); auto.
    destruct (looks_like_python (take 500 t)); auto.
    destruct (rename_fails E (join directory k) (join directory (k ++ ".py"))); auto.
    discriminate.
  - apply String.eqb_neq in Hy.
    destruct (classify_other E directory k Hpy y es Hy) as [-> _]. exact Hl.
Qed.

Lemma classify_loop_stays (E : env) (directory : path) (k : name)
    (m : Z) (u : bool) (t : string) (l : list name) :
  endswith k ".py" = false ->
  stays E directory k t = true ->
  forall es, lookup k es = Some (File m u t) ->
  lookup k (snd (loop_effect (classify_effect E directory) l es)) = Some (File m u t).
Proof.
  intros Hpy Hst. induction l as [|y l IH]; intros es Hl; cbn [loop_effect]; auto.
  pose proof (classify_effect_stays E directory y k es m u t Hpy Hst Hl) as H1.
  destruct (classify_effect E directory y es) as [[[]|e] es1]; cbn [snd] in *; auto.
Qed.

(** X9. A regular file without the [.py] suffix that the classifier does
    not rename, because reading it is refused, because its first 500
    characters do not look like Python, or because the rename is refused,
    keeps its name, mode and text: no other file is renamed onto it. *)
Theorem ensure_python_files_keeps_what_it_does_not_rename (E : env) (directory : path)
    (w : world) (k : name) (m : Z) (u : bool) (t : string) :
  endswith k ".py" = false ->
  stays E directory k t = true ->
  lookup k (fs w) = Some (File m u t) ->
  lookup k (fs (snd (ensure_python_files E directory w))) = Some (File m u t).
Proof.
  intros Hpy Hst Hl. destruct (ensure_python_files_is_effect E directory w) as [_ ->].
  unfold ensure_python_files_effect.
  destruct (is_some (lookup "__init__.py" (fs w))).
  - destruct (listdir_fails E directory); auto. now apply classify_loop_stays.
  - destruct (write_fails E (join directory "__init__.py")); auto.
    assert (Hl' : lookup k (fs w ++ [("__init__.py", File (new_file_mode E) true init_text)])%list
                  = Some (File m u t)) by (rewrite lookup_app_some; congruence).
    destruct (listdir_fails E directory); auto. now apply classify_loop_stays.
Qed.

Lemma ensure_python_files_keeps_what_it_does_not_rename_witness :
  lookup "README"
    (fs (snd (ensure_python_files (no_faults (octal 0 2 2)) ["cogs"]
                (start [("tool", File (octal 6 4 4) true python_text);
                        ("README", File (octal 6 0 0) true "import nothing here")])))) =
  Some (File (octal 6 0 0) true "import nothing here").
Proof.
  apply ensure_python_files_keeps_what_it_does_not_rename; reflexivity.
Defined.

(** ** The name the linter extracts *)

Lemma split_go_absent (sep : string) (s : string) : forall cur,
  str_in sep s = false -> split_go sep s 0 cur = [cur ++ s].
Proof.
  induction s as [|c s IH]; intros cur H; cbn [split_go].
  - now rewrite append_nil_r.
  - cbn [str_in] in H. apply orb_false_iff in H. destruct H as [H1 H2].
    rewrite H1, IH by exact H2. now rewrite append_assoc.
Qed.

Lemma split_go_skip (sep p s cur : string) :
  split_go sep (p ++ s) (String.length p) cur = split_go sep s 0 cur.
Proof.
  induction p as [|c p IH]; cbn [append String.length split_go].
  - reflexivity.
  - exact IH.
Qed.

(** The first piece, when the first character of the separator does not
    occur before it. *)
Lemma split_go_first (c0 : ascii) (sep' a r : string) : forall cur,
  has_char c0 a = false ->
  split_go (String c0 sep') (a ++ String c0 sep' ++ r) 0 cur =
    (cur ++ a) :: split_go (String c0 sep') r 0 EmptyString.
Proof.
  induction a as [|c a IH]; intros cur H.
  - cbn [append split_go]. cbn [startswith]. rewrite Ascii.eqb_refl, startswith_append.
    cbn [andb String.length Nat.sub]. rewrite Nat.sub_0_r, split_go_skip, append_nil_r.
    reflexivity.
  - cbn [has_char] in H. apply orb_false_iff in H. destruct H as [H1 H2].
    cbn [append split_go startswith]. rewrite H1. cbn [andb].
    rewrite IH by exact H2. now rewrite append_assoc.
Qed.

(** X18. On a class line of the usual form, indentation, the keyword, a
    space, the name, and the parenthesis, the linter extracts the name
    (without surrounding blanks), provided the keyword does not occur
    again in the line. *)
Theorem class_name_of_class_line (indent n rest : string) :
  has_char "c" indent = false ->
  has_char "(" n = false ->
  str_in "class" (" " ++ n ++ "(" ++ rest) = false ->
  class_name_of (indent ++ "class " ++ n ++ "(" ++ rest) = strip n.
Proof.
  intros Hi Hn Hc. unfold class_name_of, split.
  change (indent ++ "class " ++ n ++ "(" ++ rest)
    with (indent ++ "class" ++ (" " ++ n ++ "(" ++ rest)).
  rewrite split_go_first by exact Hi.
  rewrite (split_go_absent "class" _ EmptyString Hc).
  cbn [nth]. change (EmptyString ++ " " ++ n ++ "(" ++ rest) with ((" " ++ n) ++ "(" ++ rest).
  rewrite split_go_first by exact Hn.
  cbn [nth]. reflexivity.
Qed.

Lemma class_name_of_class_line_witness :
  class_name_of ("    " ++ "class " ++ "Shop" ++ "(" ++ "commands.Cog):") = strip "Shop".
Proof.
  apply class_name_of_class_line; reflexivity.
Defined.

(** X19. A class name that contains the keyword is cut there: what is
    extracted is the part of the name before the keyword, so the setup
    function the linter appends registers a name the file does not
    define. *)
Theorem class_name_of_cuts_at_keyword (indent a b : string) :
  has_char "c" indent = false ->
  has_char "c" a = false ->
  has_char "(" a = false ->
  class_name_of (indent ++ "class " ++ a ++ "class" ++ b) = strip a.
Proof.
  intros Hi Ha Hp. unfold class_name_of, split.
  change (indent ++ "class " ++ a ++ "class" ++ b)
    with (indent ++ "class" ++ ((" " ++ a) ++ "class" ++ b)).
  rewrite split_go_first by exact Hi.
  rewrite split_go_first by exact Ha.
  cbn [nth]. change (EmptyString ++ " " ++ a) with (" " ++ a).
  assert (Hno : str_in "(" (" " ++ a) = false).
  { cbn [append str_in startswith Ascii.eqb Bool.eqb andb orb].
    clear -Hp. induction a as [|c a IH]; auto.
    cbn [has_char] in Hp. apply orb_false_iff in Hp. destruct Hp as [H1 H2].
    cbn [str_in startswith]. rewrite H1. cbn [andb orb]. now apply IH. }
  rewrite (split_go_absent "(" _ EmptyString Hno).
  cbn [nth]. reflexivity.
Qed.

Lemma class_name_of_cuts_at_keyword_witness :
  class_name_of (EmptyString ++ "class " ++ "Sub" ++ "class" ++ "(commands.Cog):") = strip "Sub".
Proof.
  apply class_name_of_cuts_at_keyword; reflexivity.
Defined.

(** ** What the bootstrap leaves alone *)

(** X25. [ensure_cogs_directory] works on [cogs] and [cogs.bak] only:
    whatever is refused and however the call ends, every other name of
    the directory keeps the node it had, or stays absent.  (The file that
    the logging handler appends to is kept apart, in [logs]; its name is
    left out here.) *)
Theorem ensure_cogs_directory_only_touches_cogs (E : env) (w : world) (k : name) :
  k <> cogs -> k <> "cogs.bak" -> k <> "fix_permissions.log" ->
  lookup k (fs (snd (ensure_cogs_directory E w))) = lookup k (fs w).
Proof.
  intros Hc Hb _. now apply (frame_ensure_cogs_directory E k Hc Hb (lookup k (fs w))).
Qed.

Lemma ensure_cogs_directory_only_touches_cogs_witness :
  lookup "main.py"
    (fs (snd (ensure_cogs_directory (no_faults (octal 0 2 2))
                (start [("main.py", File (octal 6 0 0) true "import bot");
                        ("cogs", File (octal 6 4 4) true "x")])))) =
  lookup "main.py"
    (fs (start [("main.py", File (octal 6 0 0) true "import bot");
                ("cogs", File (octal 6 4 4) true "x")])).
Proof.
  apply ensure_cogs_directory_only_touches_cogs; discriminate.
Defined.

(** ** Running the classifier again *)

Lemma ensure_python_files_effect_settles (E : env) (directory : path) (es es2 : entries) :
  ensure_python_files_effect E directory es = (Ok tt, es2) ->
  lookup "__init__.py" es2 <> None /\
  listdir_fails E directory = false /\
  (forall x, classify_quiet E directory x es2 = true).
Proof.
  unfold ensure_python_files_effect.
  assert (Hloop : forall es1,
            lookup "__init__.py" es1 <> None ->
            loop_effect (classify_effect E directory) (names es1) es1 = (Ok tt, es2) ->
            lookup "__init__.py" es2 <> None /\
            (forall x, classify_quiet E directory x es2 = true)).
  { intros es1 Hi Hrun. split.
    - change es2 with (snd (Ok tt, es2)). rewrite <- Hrun.
      now apply classify_loop_keeps.
    - eapply classify_loop_quiet; eauto. intros x. apply absent_quiet. }
  destruct (lookup "__init__.py" es) eqn:Hi; cbn [is_some].
  - destruct (listdir_fails E directory); [discriminate|]. intros Hrun.
    destruct (Hloop es) as [H1 H2]; auto. congruence.
  - destruct (write_fails E (join directory "__init__.py")); [discriminate|].
    destruct (listdir_fails E directory); [discriminate|]. intros Hrun.
    match type of Hrun with
    | loop_effect _ (names ?es1) _ = _ =>
        assert (Hi' : lookup "__init__.py" es1 <> None)
          by (rewrite lookup_app_one, Hi; discriminate);
        destruct (Hloop es1 Hi' Hrun) as [H1 H2]
    end. auto.
Qed.

(** X29. After a call of [ensure_python_files] that returns, a second
    call returns too and leaves the directory as it is: a file that was
    renamed now has the suffix, and a file that was not renamed is not
    renamed this time either. *)
Theorem ensure_python_files_twice (E : env) (directory : path) (w : world) :
  fst (ensure_python_files E directory w) = Ok tt ->
  fst (ensure_python_files E directory (snd (ensure_python_files E directory w))) = Ok tt /\
  fs (snd (ensure_python_files E directory (snd (ensure_python_files E directory w)))) =
    fs (snd (ensure_python_files E directory w)).
Proof.
  intros Hok.
  destruct (ensure_python_files_is_effect E directory w) as [H1 H2].
  destruct (ensure_python_files_is_effect E directory
              (snd (ensure_python_files E directory w))) as [H3 H4].
  rewrite H3, H4, H2. rewrite H1 in Hok. clear H1 H2 H3 H4.
  destruct (ensure_python_files_effect E directory (fs w)) as [r es2] eqn:Hrun.
  cbn [fst snd] in *. subst r.
  destruct (ensure_python_files_effect_settles E directory _ _ Hrun) as (Hi & Hl & Hq).
  unfold ensure_python_files_effect.
  apply not_none_is_some in Hi. rewrite Hi, Hl.
  now rewrite (classify_loop_fixed E directory es2 (names es2) Hq).
Qed.

Lemma ensure_python_files_twice_witness :
  let E := refusing_rename ["cogs"; "held"] in
  let w := start [("tool", File (octal 6 0 0) true python_text);
                  ("held", File (octal 6 0 0) true python_text)] in
  fst (ensure_python_files E ["cogs"] (snd (ensure_python_files E ["cogs"] w))) = Ok tt /\
  fs (snd (ensure_python_files E ["cogs"] (snd (ensure_python_files E ["cogs"] w)))) =
    fs (snd (ensure_python_files E ["cogs"] w)).
Proof.
  intros E w. apply ensure_python_files_twice. reflexivity.
Defined.
